(** * LifeRPG progression engine: a shallow embedding of the app's logic

    The source is a single React component file.  The logic that the
    specification calls the "Progression Engine" lives in [App]:
    the helpers [getXPForLevel], [getLevelFromXP], [calculateXP], the
    state updaters [handleAddCustomActivity] and [handleLogActivity], the
    mount-time date check, and the log modal's custom-duration button.

    Conventions of the embedding.
    - JavaScript numbers that hold XP, levels, streaks, minutes and
      timestamps are integers in every run of the app; they are modelled
      as [Z].  [Math.random()] draws are modelled as rationals [Q].
    - Everything the handler reads from its environment (the clock, the
      random source) is collected in the record [Env] and passed in.
    - [setGameState(prev => ...)] is modelled by explicit state passing. *)

From Stdlib Require Import ZArith QArith Qround List String Ascii Bool Lia.
From Stdlib Require Import DecimalString.
Import ListNotations.

Open Scope string_scope.
Open Scope list_scope.
Open Scope Z_scope.

(** ** Types *)

Definition ActivityType := string.

Inductive StatType := Strength | Knowledge | Wealth | Mind | Discipline.

Module Log.
Record t := mk {
  id : string;
  activityType : ActivityType;
  durationMinutes : Z;
  xpEarned : Z;
  timestamp : Z;
  dateStr : string;
  isCritical : bool
}.
End Log.

Module CustomActivity.
Record t := mk {
  id : string;
  name : string;
  stat : StatType;
  iconKey : string;
  color : string;
  baseXP : Z;
  baseDuration : Z
}.
End CustomActivity.

(** The element type of [DEFAULT_ACTIVITIES] and of [allActivities]. *)
Module ActivityDef.
Record t := mk {
  type : ActivityType;
  iconKey : string;
  stat : StatType;
  color : string;
  baseXP : Z;
  baseDuration : Z
}.
End ActivityDef.

Module DailyQuestState.
Record t := mk {
  dateStr : string;
  completed : list ActivityType;
  bonusClaimed : bool
}.
End DailyQuestState.

(** [Record<StatType, number>]: one number per stat of the closed enum. *)
Record Stats := mkStats {
  strength : Z;
  knowledge : Z;
  wealth : Z;
  mind : Z;
  discipline : Z
}.

Record UserState := mkUserState {
  level : Z;
  currentXP : Z;
  totalXP : Z;
  stats : Stats;
  logs : list Log.t;
  streak : Z;
  lastLoginDate : string;
  unlockedAchievements : list string;
  dailyQuests : DailyQuestState.t;
  inventory : list string;
  customActivities : list CustomActivity.t
}.

Inductive RewardType := CRITICAL | BONUS | ITEM | LEVEL_UP | QUEST_COMPLETE.

Module RewardEvent.
Record t := mk {
  type : RewardType;
  message : string;
  xp : option Z;
  item : option string
}.
End RewardEvent.

(** What one run of [handleLogActivity] reads from outside the state. *)
Record Env := mkEnv {
  todayStr : string;      (* formatDate(new Date()) of the current render *)
  yesterday : string;     (* formatDate(new Date(Date.now() - 86400000)) *)
  nowMs : Z;              (* now.getTime() *)
  idStr : string;         (* Date.now().toString() *)
  localHour : Z;          (* new Date(newLog.timestamp).getHours() *)
  isoToday : string;      (* new Date().toISOString().split('T')[0] *)
  roll : Q;               (* the first Math.random() *)
  roll2 : Q               (* the second Math.random(), drawn in two branches *)
}.

Definition RewardType_eqb (a b : RewardType) : bool :=
  match a, b with
  | CRITICAL, CRITICAL | BONUS, BONUS | ITEM, ITEM
  | LEVEL_UP, LEVEL_UP | QUEST_COMPLETE, QUEST_COMPLETE => true
  | _, _ => false
  end.

Definition getStat (st : Stats) (k : StatType) : Z :=
  match k with
  | Strength => strength st
  | Knowledge => knowledge st
  | Wealth => wealth st
  | Mind => mind st
  | Discipline => discipline st
  end.

(** [newStats[k] += d] *)
Definition addStat (st : Stats) (k : StatType) (d : Z) : Stats :=
  match k with
  | Strength => mkStats (strength st + d) (knowledge st) (wealth st) (mind st) (discipline st)
  | Knowledge => mkStats (strength st) (knowledge st + d) (wealth st) (mind st) (discipline st)
  | Wealth => mkStats (strength st) (knowledge st) (wealth st + d) (mind st) (discipline st)
  | Mind => mkStats (strength st) (knowledge st) (wealth st) (mind st + d) (discipline st)
  | Discipline => mkStats (strength st) (knowledge st) (wealth st) (mind st) (discipline st + d)
  end.

(** [Array.prototype.includes] on an array of strings. *)
Definition includes (l : list string) (x : string) : bool :=
  existsb (String.eqb x) l.

(** [arr[i]]: [undefined] (here [None]) outside the array. *)
Definition nth_Z {A} (l : list A) (i : Z) : option A :=
  if i <? 0 then None else nth_error l (Z.to_nat i).

(** ** Constants & Config *)

Definition LEVEL_BASE : Z := 100.

(** [LEVEL_MULTIPLIER = 1.5], kept as the fraction 3/2. *)
Definition LEVEL_MULTIPLIER_NUM : Z := 3.
Definition LEVEL_MULTIPLIER_DEN : Z := 2.

Definition DEFAULT_ACTIVITIES : list ActivityDef.t :=
  [ ActivityDef.mk "Workout" "Dumbbell" Strength "text-red-500" 40 30;
    ActivityDef.mk "Reading" "BookOpen" Knowledge "text-blue-500" 25 30;
    ActivityDef.mk "Work/Study" "Briefcase" Wealth "text-yellow-500" 50 60;
    ActivityDef.mk "Meditation" "Brain" Mind "text-purple-500" 20 15;
    ActivityDef.mk "Skill Learning" "Zap" Knowledge "text-cyan-500" 45 30 ].

(** [DAILY_QUESTS], by their [type] field (label and icon are display only). *)
Definition DAILY_QUESTS : list ActivityType :=
  [ "Workout"; "Reading"; "Work/Study"; "Meditation" ].

Definition LOOT_TABLE : list string :=
  [ "Potion of Focus"; "Scroll of Wisdom"; "Dumbbell of Giants";
    "Coin of Discipline"; "Timekeeper's Hourglass"; "Meditative Gem" ].

Definition INITIAL_STATE : UserState :=
  {| level := 1;
     currentXP := 0;
     totalXP := 0;
     stats := mkStats 0 0 0 0 0;
     logs := [];
     streak := 0;
     lastLoginDate := "";
     unlockedAchievements := [];
     dailyQuests := DailyQuestState.mk "" [] false;
     inventory := [];
     customActivities := [] |}.

(** ** Logic helpers: leveling math

    The source computes both functions in IEEE doubles with [Math.pow].
    The embedding takes the real-number value of the two expressions and
    characterises its floor over the integers:
    - [floor (100 * level^(3/2))] is the integer square root of
      [100^2 * level^3];
    - [floor ((xp/100)^(2/3))] is the largest [n] with
      [100^2 * n^3 <= xp^2], the integer cube root of
      [floor (xp^2 / 100^2)].
    For the XP values the app produces, a double [Math.pow] gives the same
    floor wherever the real power is not an integer.  Where it is an
    integer greater than 1 (xp = 800, 2700, ...: [(xp/100)^(2/3)] = 4, 9,
    ...), the double exponent [1 / 1.5] lies just below 2/3 and
    [Math.pow] returns the double just below the integer: at 800 XP the
    source gives level 4 where [getLevelFromXP] below gives 5, and in
    general [k^2] at [xp = 100 * k^3] where the function below gives
    [k^2 + 1].  The statements of this file either evaluate
    [getLevelFromXP] away from these inputs or only name it as the level
    the handler stores. *)

(** Floor of the cube root, by bisection on the bits of [m]. *)
Fixpoint cbrt_bits (fuel : nat) (m : Z) : Z :=
  match fuel with
  | O => 0
  | S f =>
      if m <=? 0 then 0
      else
        let r := 2 * cbrt_bits f (m / 8) in
        if (r + 1) * (r + 1) * (r + 1) <=? m then r + 1 else r
  end.

Definition cbrt (m : Z) : Z := cbrt_bits (S (Z.to_nat (Z.log2 m))) m.

(** [Math.floor(LEVEL_BASE * Math.pow(level, LEVEL_MULTIPLIER))], for
    [level >= 0] (every call site passes a level or a level minus one). *)
Definition getXPForLevel (level : Z) : Z :=
  Z.sqrt (LEVEL_BASE ^ LEVEL_MULTIPLIER_DEN * level ^ LEVEL_MULTIPLIER_NUM).

(** [Math.floor(Math.pow(xp / LEVEL_BASE, 1 / LEVEL_MULTIPLIER)) + 1], for
    [xp >= 0]. *)
Definition getLevelFromXP (xp : Z) : Z :=
  cbrt (xp ^ LEVEL_MULTIPLIER_DEN / LEVEL_BASE ^ LEVEL_MULTIPLIER_DEN) + 1.

(** [Math.round(baseXP * (duration / baseDuration))]; [Math.round] rounds
    halves towards plus infinity.  Exact rational arithmetic; the activity
    definitions of the app all have a positive [baseDuration].  The source
    divides in doubles and then multiplies: it agrees with the exact value
    where the quotient is exact (whole multiples of the base duration) and
    can be one lower where the exact product is a half, as for
    [(45, 30, 21)]: 31 in the source, 32 here. *)
Definition calculateXP (baseXP baseDuration duration : Z) : Z :=
  let ratio := (inject_Z duration / inject_Z baseDuration)%Q in
  Qfloor (inject_Z baseXP * ratio + (1 # 2))%Q.

(** ** Achievements *)

Module Achievement.
Record t := mk {
  id : string;
  title : string;
  description : string;
    (* [condition(state, newLog?)]; the environment is passed in because
       two of the conditions read the clock. *)
  condition : Env -> UserState -> option Log.t -> bool
}.
End Achievement.

(** [arr.reduce((acc, curr) => acc + f(curr), 0)] *)
Definition sumBy {A} (f : A -> Z) (l : list A) : Z :=
  fold_left (fun acc curr => acc + f curr) l 0.

Definition ACHIEVEMENTS_LIST : list Achievement.t :=
  [ Achievement.mk "first_step" "First Step" "Log your first activity."
      (fun _ state _ => 1 <=? Z.of_nat (List.length (logs state)));
    Achievement.mk "streak_7" "On Fire" "Reach a 7-day streak."
      (fun _ state _ => 7 <=? streak state);
    Achievement.mk "reader" "Bookworm" "Log 30 hours of reading."
      (fun _ state _ =>
         let readingMins :=
           sumBy Log.durationMinutes
             (filter (fun l => String.eqb (Log.activityType l) "Reading") (logs state)) in
         30 * 60 <=? readingMins);
    Achievement.mk "daily_grind" "Daily Grind" "Earn 100 XP in a single day."
      (fun e state newLog =>
         match newLog with
         | None => false
         | Some _ =>
             let todayXP :=
               sumBy Log.xpEarned
                 (filter (fun l => String.eqb (Log.dateStr l) (isoToday e)) (logs state)) in
             100 <=? todayXP
         end);
    Achievement.mk "early_riser" "Early Riser" "Log an activity before 8 AM."
      (fun e _ newLog =>
         match newLog with
         | None => false
         | Some _ =>
             let hour := localHour e in
             (hour <? 8) && (4 <=? hour)
         end) ].

(** ** App: derived data and state updaters *)

(** [allActivities]: the built-ins followed by the custom activities, a
    custom activity being listed under its [name]. *)
Definition allActivities (gameState : UserState) : list ActivityDef.t :=
  let customs :=
    map (fun c =>
           ActivityDef.mk (CustomActivity.name c) (CustomActivity.iconKey c)
             (CustomActivity.stat c) (CustomActivity.color c)
             (CustomActivity.baseXP c) (CustomActivity.baseDuration c))
        (customActivities gameState) in
  DEFAULT_ACTIVITIES ++ customs.

(** The mount-time effect ("Init & Date Checks"), as the updater it passes
    to [setGameState]; [today] and [yesterday] are the two formatted
    dates it computes. *)
Definition initDateCheck (today yesterday : string) (prev : UserState) : UserState :=
  let dq :=
    if negb (String.eqb (DailyQuestState.dateStr (dailyQuests prev)) today)
    then DailyQuestState.mk today [] false
    else dailyQuests prev in
  let st :=
    if negb (String.eqb (lastLoginDate prev) today)
       && negb (String.eqb (lastLoginDate prev) "")
       && String.ltb (lastLoginDate prev) yesterday
    then 0
    else streak prev in
  {| level := level prev;
     currentXP := currentXP prev;
     totalXP := totalXP prev;
     stats := stats prev;
     logs := logs prev;
     streak := st;
     lastLoginDate := lastLoginDate prev;
     unlockedAchievements := unlockedAchievements prev;
     dailyQuests := dq;
     inventory := inventory prev;
     customActivities := customActivities prev |}.

Definition handleAddCustomActivity (activity : CustomActivity.t) (prev : UserState)
  : UserState :=
  {| level := level prev;
     currentXP := currentXP prev;
     totalXP := totalXP prev;
     stats := stats prev;
     logs := logs prev;
     streak := streak prev;
     lastLoginDate := lastLoginDate prev;
     unlockedAchievements := unlockedAchievements prev;
     dailyQuests := dailyQuests prev;
     inventory := inventory prev;
     customActivities := customActivities prev ++ [activity] |}.

(** ** handleLogActivity, section by section *)

Definition Qltb (x y : Q) : bool := negb (Qle_bool y x).

(** "Random Rewards": from [baseXP] to [(isCritical, totalNewXP, newRewards)]. *)
Definition randomRewards (e : Env) (baseXP : Z) : bool * Z * list RewardEvent.t :=
  if Qltb (roll e) 0.10 then
    let totalNewXP := baseXP * 2 in
    (true, totalNewXP,
     [RewardEvent.mk CRITICAL "Critical Success! XP Doubled!" (Some totalNewXP) None])
  else if Qltb (roll e) 0.25 then
    let bonus := Qfloor (roll2 e * 20) + 10 in
    (false, baseXP + bonus, [RewardEvent.mk BONUS "Bonus Focus!" (Some bonus) None])
  else if Qltb (roll e) 0.30 then
    let item := nth_Z LOOT_TABLE (Qfloor (roll2 e * inject_Z (Z.of_nat (List.length LOOT_TABLE)))) in
    (false, baseXP, [RewardEvent.mk ITEM "You found an item!" None item])
  else (false, baseXP, []).

(** "Streak Logic": [(newStreak, totalNewXP, newRewards)]. *)
Definition streakLogic (e : Env) (gameState : UserState)
    (totalNewXP : Z) (newRewards : list RewardEvent.t)
  : Z * Z * list RewardEvent.t :=
  let lastLogDate := lastLoginDate gameState in
  if negb (String.eqb lastLogDate (todayStr e)) then
    let newStreak :=
      if String.eqb lastLogDate (yesterday e) then streak gameState + 1 else 1 in
    if (0 <? newStreak) && (Z.rem newStreak 7 =? 0) then
      (newStreak, totalNewXP + 100,
       newRewards ++ [RewardEvent.mk BONUS "7 Day Streak Bonus!" (Some 100) None])
    else (newStreak, totalNewXP, newRewards)
  else (streak gameState, totalNewXP, newRewards).

(** "Daily Quest Logic": [(currentDailyState, totalNewXP, newRewards)]. *)
Definition dailyQuestLogic (gameState : UserState) (type : ActivityType)
    (totalNewXP : Z) (newRewards : list RewardEvent.t)
  : DailyQuestState.t * Z * list RewardEvent.t :=
  let currentDailyState := dailyQuests gameState in
  let isQuestType := existsb (fun q => String.eqb q type) DAILY_QUESTS in
  if isQuestType && negb (includes (DailyQuestState.completed currentDailyState) type) then
    let completed := DailyQuestState.completed currentDailyState ++ [type] in
    if (Z.of_nat (List.length completed) =? 4)
       && negb (DailyQuestState.bonusClaimed currentDailyState) then
      let questBonus := 80 in
      (DailyQuestState.mk (DailyQuestState.dateStr currentDailyState) completed true,
       totalNewXP + questBonus,
       newRewards ++
         [RewardEvent.mk QUEST_COMPLETE "Daily Quests Completed!" (Some questBonus) None])
    else
      (DailyQuestState.mk (DailyQuestState.dateStr currentDailyState) completed
         (DailyQuestState.bonusClaimed currentDailyState),
       totalNewXP, newRewards)
  else (currentDailyState, totalNewXP, newRewards).

(** "Achievements": the [forEach] over a list of achievements, threading
    [(newUnlocked, newRewards)].  The [&&] of the source is short-circuit:
    the condition is the second operand. *)
Definition checkAchievement (e : Env) (tempState : UserState) (newLog : Log.t)
    (acc : list string * list RewardEvent.t) (ach : Achievement.t)
  : list string * list RewardEvent.t :=
  let '(newUnlocked, newRewards) := acc in
  if negb (includes newUnlocked (Achievement.id ach))
     && Achievement.condition ach e tempState (Some newLog)
  then (newUnlocked ++ [Achievement.id ach],
        newRewards ++
          [RewardEvent.mk BONUS ("Achievement: " ++ Achievement.title ach)%string None None])
  else (newUnlocked, newRewards).

Definition checkAchievements (achs : list Achievement.t) (e : Env)
    (tempState : UserState) (newLog : Log.t)
    (newUnlocked : list string) (newRewards : list RewardEvent.t)
  : list string * list RewardEvent.t :=
  fold_left (checkAchievement e tempState newLog) achs (newUnlocked, newRewards).

(** [itemReward && itemReward.item]: a string is truthy when not empty. *)
Definition truthyItem (r : option RewardEvent.t) : option string :=
  match r with
  | Some r =>
      match RewardEvent.item r with
      | Some i => if String.eqb i "" then None else Some i
      | None => None
      end
  | None => None
  end.

Definition string_of_Z (n : Z) : string := NilZero.string_of_int (Z.to_int n).

(** [handleLogActivity(type, duration)].  [gameState] is the state captured
    by the render that created the handler and [prev] is the state handed
    to the updater of [setGameState].  The result is [None] when the
    handler returns before [setGameState] (unknown activity), otherwise the
    new state and the rewards appended to the reward queue. *)
Definition handleLogActivity (gameState prev : UserState) (e : Env)
    (type : ActivityType) (duration : Z)
  : option (UserState * list RewardEvent.t) :=
  match find (fun a => String.eqb (ActivityDef.type a) type) (allActivities gameState) with
  | None => None
  | Some activityDef =>
      let baseXP :=
        calculateXP (ActivityDef.baseXP activityDef) (ActivityDef.baseDuration activityDef)
          duration in
      let '(isCritical, totalNewXP, newRewards) := randomRewards e baseXP in
      let '(newStreak, totalNewXP, newRewards) :=
        streakLogic e gameState totalNewXP newRewards in
      let '(currentDailyState, totalNewXP, newRewards) :=
        dailyQuestLogic gameState type totalNewXP newRewards in
      let newLog :=
        Log.mk (idStr e) type duration totalNewXP (nowMs e) (todayStr e) isCritical in
      let newStats :=
        addStat (addStat (stats gameState) (ActivityDef.stat activityDef) baseXP)
          Discipline 5 in
      let newTotalXP := totalXP gameState + totalNewXP in
      let newLevel := getLevelFromXP newTotalXP in
      let newRewards :=
        if level gameState <? newLevel then
          newRewards ++
            [RewardEvent.mk LEVEL_UP
               ("Level " ++ string_of_Z newLevel ++ " Reached!")%string None None]
        else newRewards in
      let tempState :=
        {| level := level gameState;
           currentXP := currentXP gameState;
           totalXP := newTotalXP;
           stats := stats gameState;
           logs := newLog :: logs gameState;
           streak := newStreak;
           lastLoginDate := lastLoginDate gameState;
           unlockedAchievements := unlockedAchievements gameState;
           dailyQuests := dailyQuests gameState;
           inventory := inventory gameState;
           customActivities := customActivities gameState |} in
      let '(newUnlocked, newRewards) :=
        checkAchievements ACHIEVEMENTS_LIST e tempState newLog
          (unlockedAchievements gameState) newRewards in
      let newInventory :=
        match truthyItem
                (find (fun r => RewardType_eqb (RewardEvent.type r) ITEM) newRewards) with
        | Some i => inventory gameState ++ [i]
        | None => inventory gameState
        end in
      Some
        ({| level := newLevel;
            currentXP := currentXP prev + totalNewXP;
            totalXP := newTotalXP;
            stats := newStats;
            logs := newLog :: logs prev;
            streak := newStreak;
            lastLoginDate := todayStr e;
            unlockedAchievements := newUnlocked;
            dailyQuests := currentDailyState;
            inventory := newInventory;
            customActivities := customActivities prev |},
         newRewards)
  end.

(** One activity-log transition in which the handler runs on the state the
    screen shows: the captured state and the updater's state are the same.
    A call of the handler of an older render is [handleLogActivity] on two
    different states. *)
Definition applyActivityLog (s : UserState) (e : Env) (type : ActivityType) (duration : Z)
  : option (UserState * list RewardEvent.t) :=
  handleLogActivity s s e type duration.

(** The state after a transition; a handler that returned early changed
    nothing. *)
Definition stateAfter (s : UserState) (r : option (UserState * list RewardEvent.t))
  : UserState :=
  match r with Some (s', _) => s' | None => s end.

Definition rewardsOf (r : option (UserState * list RewardEvent.t)) : list RewardEvent.t :=
  match r with Some (_, rs) => rs | None => [] end.

(** ** LogActivityModal: the two callers of the handler *)

(** [handleQuickLog(duration)]: [if (selectedType) onLog(selectedType, duration)]. *)
Definition handleQuickLog (selectedType : option ActivityType) (s : UserState) (e : Env)
    (duration : Z) : option (UserState * list RewardEvent.t) :=
  match selectedType with
  | Some t => if String.eqb t "" then None else applyActivityLog s e t duration
  | None => None
  end.

(** The LOG button of the custom-duration field.  [val] is
    [parseInt(customDuration)]: an integer, or [None] for [NaN]. *)
Definition customDurationLog (selectedType : option ActivityType) (val : option Z)
    (s : UserState) (e : Env) : option (UserState * list RewardEvent.t) :=
  match val with
  | Some v => if 0 <? v then handleQuickLog selectedType s e v else None
  | None => None
  end.

(** The durations offered by the quick-log buttons. *)
Definition QUICK_DURATIONS : list Z := [15; 30; 45; 60; 90; 120].

(** ** Sequences of transitions and reachable states *)

(** The number of reward events of one type. *)
Definition countType (ty : RewardType) (rs : list RewardEvent.t) : nat :=
  List.length (filter (fun r => RewardType_eqb (RewardEvent.type r) ty) rs).

(** One call of the handler: what it reads from outside and its arguments. *)
Record LogEvent := mkLogEvent {
  ev_env : Env;
  ev_type : ActivityType;
  ev_duration : Z
}.

(** Handler calls one after the other; the reward queue collects the
    rewards in order ([setRewardQueue(prev => [...prev, ...newRewards])]). *)
Fixpoint runLogs (s : UserState) (evs : list LogEvent) : UserState * list RewardEvent.t :=
  match evs with
  | [] => (s, [])
  | ev :: evs' =>
      let r := applyActivityLog s (ev_env ev) (ev_type ev) (ev_duration ev) in
      let '(s', rs') := runLogs (stateAfter s r) evs' in
      (s', rewardsOf r ++ rs')
  end.

(** The states the app can be in as long as every log is made by the
    handler of the current render: the initial state, changed by the
    mount-time date check, by adding custom activities and by logging. *)
Inductive reachable : UserState -> Prop :=
| reach_initial : reachable INITIAL_STATE
| reach_mount today yesterday s :
    reachable s -> reachable (initDateCheck today yesterday s)
| reach_add activity s :
    reachable s -> reachable (handleAddCustomActivity activity s)
| reach_log s e type duration s' rs :
    reachable s -> applyActivityLog s e type duration = Some (s', rs) -> reachable s'.

(** The daily-quest tracker as the handler keeps it: no quest listed
    twice, only quest types listed, and the bonus claimed exactly when
    four are listed. *)
Definition questTrackerOk (dq : DailyQuestState.t) : Prop :=
  NoDup (DailyQuestState.completed dq)
  /\ incl (DailyQuestState.completed dq) DAILY_QUESTS
  /\ (DailyQuestState.bonusClaimed dq = true
      <-> List.length (DailyQuestState.completed dq) = 4%nat).

(** All four quest types are in the completed set. *)
Definition allQuestsDone (dq : DailyQuestState.t) : bool :=
  forallb (includes (DailyQuestState.completed dq)) DAILY_QUESTS.

(** Two achievement lists that differ only in the conditions of
    achievements already unlocked. *)
Definition sameUnlessUnlocked (unlocked : list string) (e : Env) (tempState : UserState)
    (newLog : Log.t) (a a' : Achievement.t) : Prop :=
  Achievement.id a = Achievement.id a'
  /\ Achievement.title a = Achievement.title a'
  /\ (~ In (Achievement.id a) unlocked ->
      Achievement.condition a e tempState (Some newLog)
      = Achievement.condition a' e tempState (Some newLog)).

(** ** Titles *)

(** [TITLES], in the order [Object.keys] lists its integer keys. *)
Definition TITLES : list (Z * string) :=
  [ (1, "Novice"); (3, "Beginner"); (5, "Focused"); (7, "Disciplined");
    (10, "Unstoppable"); (15, "Elite"); (20, "Ascended") ].

(** [TITLES[l]]: [None] for a key the object does not have. *)
Fixpoint lookupTitle (l : Z) (ts : list (Z * string)) : option string :=
  match ts with
  | [] => None
  | (k, t) :: ts' => if k =? l then Some t else lookupTitle l ts'
  end.

(** [arr.sort(compare)] as a stable insertion sort: [a] goes before [b]
    when [compare(a, b) <= 0]. *)
Fixpoint insertBy (compare : Z -> Z -> Z) (x : Z) (l : list Z) : list Z :=
  match l with
  | [] => [x]
  | y :: l' => if compare x y <=? 0 then x :: l else y :: insertBy compare x l'
  end.

Definition sortBy (compare : Z -> Z -> Z) (l : list Z) : list Z :=
  fold_right (insertBy compare) [] l.

(** [getTitle(level)]: the keys sorted in descending order, the title of
    the first key not above [level], [TITLES[1]] when there is none. *)
Definition getTitle (level : Z) : option string :=
  let levels := sortBy (fun a b => b - a) (map fst TITLES) in
  match find (fun l => l <=? level) levels with
  | Some l => lookupTitle l TITLES
  | None => lookupTitle 1 TITLES
  end.

(** ** App: what the dashboard is given *)

Definition nextLevelXP (gameState : UserState) : Z := getXPForLevel (level gameState).
Definition currentLevelBaseXP (gameState : UserState) : Z :=
  getXPForLevel (level gameState - 1).
Definition xpProgress (gameState : UserState) : Z :=
  totalXP gameState - currentLevelBaseXP gameState.
Definition xpRequiredForNext (gameState : UserState) : Z :=
  nextLevelXP gameState - currentLevelBaseXP gameState.

(** [todayXP], for the render's [todayStr]. *)
Definition todayXP (today : string) (gameState : UserState) : Z :=
  sumBy Log.xpEarned (filter (fun l => String.eqb (Log.dateStr l) today) (logs gameState)).

(** ** StatsView: the level of one stat

    [Math.floor(Math.sqrt(value / 50)) + 1] for [value >= 0]: the floor of
    the square root of a quotient is the integer square root of the
    integer quotient. *)
Definition statLevel (value : Z) : Z := Z.sqrt (value / 50) + 1.
Definition statNextXP (value : Z) : Z := 50 * statLevel value ^ 2.
Definition statPrevXP (value : Z) : Z := 50 * (statLevel value - 1) ^ 2.
Definition statProgress (value : Z) : Z := value - statPrevXP value.
Definition statRequired (value : Z) : Z := statNextXP value - statPrevXP value.

(** ** The reward overlay: one reward at a time *)

Record RewardView := mkRewardView {
  currentReward : option RewardEvent.t;
  rewardQueue : list RewardEvent.t
}.

(** The effect on [rewardQueue, currentReward]: with no reward on screen
    and a non-empty queue, show [rewardQueue[0]] and drop it from the
    queue ([prev.slice(1)]). *)
Definition rewardEffect (v : RewardView) : RewardView :=
  match currentReward v, rewardQueue v with
  | None, r :: _ => mkRewardView (Some r) (tl (rewardQueue v))
  | _, _ => v
  end.

(** [closeReward]: [setCurrentReward(null)]. *)
Definition closeReward (v : RewardView) : RewardView :=
  mkRewardView None (rewardQueue v).

(** The end of [handleLogActivity]:
    [if (newRewards.length > 0) setRewardQueue(prev => [...prev, ...newRewards])]. *)
Definition queueRewards (newRewards : list RewardEvent.t) (v : RewardView) : RewardView :=
  match newRewards with
  | [] => v
  | _ => mkRewardView (currentReward v) (rewardQueue v ++ newRewards)
  end.

(** What the user sees over [n] rounds of "effect, then tap to close". *)
Fixpoint rewardsShown (n : nat) (v : RewardView) : list RewardEvent.t :=
  match n with
  | O => []
  | S n' =>
      let v' := rewardEffect v in
      match currentReward v' with
      | Some r => r :: rewardsShown n' (closeReward v')
      | None => []
      end
  end.

Definition StatType_eqb (a b : StatType) : bool :=
  match a, b with
  | Strength, Strength | Knowledge, Knowledge | Wealth, Wealth
  | Mind, Mind | Discipline, Discipline => true
  | _, _ => false
  end.

(** The activity definition a custom activity is listed as. *)
Definition customDef (c : CustomActivity.t) : ActivityDef.t :=
  ActivityDef.mk (CustomActivity.name c) (CustomActivity.iconKey c)
    (CustomActivity.stat c) (CustomActivity.color c)
    (CustomActivity.baseXP c) (CustomActivity.baseDuration c).

(** The reward events that carry a given message. *)
Definition countMessage (m : string) (rs : list RewardEvent.t) : nat :=
  List.length (filter (fun r => String.eqb (RewardEvent.message r) m) rs).

(** ** Sample inputs *)

(** A quiet environment on 2 January 2024, 09:00: no roll reward. *)
Definition env_jan2 : Env :=
  mkEnv "2024-01-02" "2024-01-01" 1704186000000 "1704186000000" 9 "2024-01-02" 0.5 0.

(** The same clock one day earlier. *)
Definition env_jan1 : Env :=
  mkEnv "2024-01-01" "2023-12-31" 1704099600000 "1704099600000" 9 "2024-01-01" 0.5 0.

(** A roll below 0.10 on the same morning. *)
Definition env_critical : Env :=
  mkEnv "2024-01-02" "2024-01-01" 1704186000000 "1704186000000" 9 "2024-01-02" 0.05 0.

(** A custom activity that reuses the name of a built-in. *)
Definition workoutAgain : CustomActivity.t :=
  CustomActivity.mk "1704186000000" "Workout" Strength "Sword" "text-red-500" 30 30.

(** The app mounted on 1 January with one workout logged that day. *)
Definition state_jan1 : UserState :=
  stateAfter INITIAL_STATE
    (applyActivityLog (initDateCheck "2024-01-01" "2023-12-31" INITIAL_STATE)
       env_jan1 "Workout" 30).

(** The four quests of 2 January, then a second workout. *)
Definition five_logs : list LogEvent :=
  map (fun t => mkLogEvent env_jan2 t 30)
    ["Workout"; "Reading"; "Work/Study"; "Meditation"; "Workout"].

(** A profile one XP short of level 2 that already logged today. *)
Definition state_99xp : UserState :=
  {| level := 1;
     currentXP := 99;
     totalXP := 99;
     stats := mkStats 99 0 0 0 15;
     logs := [ Log.mk "1704182400000" "Workout" 30 40 1704182400000 "2024-01-02" false;
               Log.mk "1704099600000" "Workout" 30 40 1704099600000 "2024-01-01" false;
               Log.mk "1704013200000" "Workout" 14 19 1704013200000 "2023-12-31" false ];
     streak := 3;
     lastLoginDate := "2024-01-02";
     unlockedAchievements := ["first_step"];
     dailyQuests := DailyQuestState.mk "2024-01-02" ["Workout"] false;
     inventory := [];
     customActivities := [] |}.

(** The four quests on 1 January and on 2 January. *)
Definition quests_jan1 : list LogEvent :=
  map (fun t => mkLogEvent env_jan1 t 30) DAILY_QUESTS.

Definition quests_jan2 : list LogEvent :=
  map (fun t => mkLogEvent env_jan2 t 30) DAILY_QUESTS.

(** The app mounted on 1 January. *)
Definition state_mounted_jan1 : UserState :=
  initDateCheck "2024-01-01" "2023-12-31" INITIAL_STATE.

(** ... with all four quests logged that day, and with the first three. *)
Definition state_quests_done_jan1 : UserState :=
  fst (runLogs state_mounted_jan1 quests_jan1).

Definition state_three_quests_jan1 : UserState :=
  fst (runLogs state_mounted_jan1 (firstn 3 quests_jan1)).

(** The app mounted on 2 January, and the profile after one workout
    logged from that render. *)
Definition state_mounted_jan2 : UserState :=
  initDateCheck "2024-01-02" "2024-01-01" INITIAL_STATE.

Definition state_first_tap : UserState :=
  stateAfter state_mounted_jan2 (applyActivityLog state_mounted_jan2 env_jan2 "Workout" 30).

(** A second tap served by the handler of the same render: the handler
    still holds [state_mounted_jan2] while the updater is handed
    [state_first_tap]. *)
Definition state_second_tap : UserState :=
  stateAfter state_first_tap
    (handleLogActivity state_mounted_jan2 state_first_tap env_jan2 "Reading" 30).

(** A profile last used on 25 December, with a streak of 5. *)
Definition state_absent : UserState :=
  {| level := 1;
     currentXP := 40;
     totalXP := 40;
     stats := mkStats 40 0 0 0 5;
     logs := [ Log.mk "1703494800000" "Workout" 30 40 1703494800000 "2023-12-25" false ];
     streak := 5;
     lastLoginDate := "2023-12-25";
     unlockedAchievements := ["first_step"];
     dailyQuests := DailyQuestState.mk "2023-12-25" ["Workout"] false;
     inventory := [];
     customActivities := [] |}.

(** A profile at 800 XP with the level the app stores for it. *)
Definition state_800xp : UserState :=
  {| level := 4;
     currentXP := 800;
     totalXP := 800;
     stats := mkStats 0 0 0 0 0;
     logs := [];
     streak := 0;
     lastLoginDate := "";
     unlockedAchievements := [];
     dailyQuests := DailyQuestState.mk "" [] false;
     inventory := [];
     customActivities := [] |}.

(** The states the app can be in when the handler of an older render may
    also be called: the state the handler captured and the state handed
    to the updater are then two states of the app, not always the same
    one.  Every pair of states is allowed here, which covers the pairs
    that occur (a captured state and a later one). *)
Inductive reachableStale : UserState -> Prop :=
| stale_initial : reachableStale INITIAL_STATE
| stale_mount today yesterday s :
    reachableStale s -> reachableStale (initDateCheck today yesterday s)
| stale_add activity s :
    reachableStale s -> reachableStale (handleAddCustomActivity activity s)
| stale_log gameState prev e type duration s' rs :
    reachableStale gameState -> reachableStale prev ->
    handleLogActivity gameState prev e type duration = Some (s', rs) ->
    reachableStale s'.

(** * Theorems *)

(** ** Leveling math *)

Lemma cube_mono (a b : Z) : 0 <= a -> a < b -> a * a * a < b * b * b.
Proof.
  intros Ha Hab.
  assert (H1 : a * a <= b * b) by nia.
  assert (H2 : a * a * a <= b * b * a) by nia.
  assert (H3 : b * b * a < b * b * b) by nia.
  lia.
Qed.

Lemma cbrt_bits_spec (fuel : nat) :
  forall m, 0 <= m < 8 ^ Z.of_nat fuel ->
    let r := cbrt_bits fuel m in
    0 <= r /\ r * r * r <= m < (r + 1) * (r + 1) * (r + 1).
Proof.
  induction fuel as [|f IH]; intros m Hm.
  - simpl in *. lia.
  - cbn [cbrt_bits]. destruct (Z.leb_spec m 0) as [H0|H0].
    + simpl. lia.
    + assert (Hq : 0 <= m / 8 < 8 ^ Z.of_nat f).
      { rewrite Nat2Z.inj_succ, Z.pow_succ_r in Hm by lia.
        split; [apply Z.div_pos; lia | apply Z.div_lt_upper_bound; lia]. }
      specialize (IH _ Hq). cbv zeta in IH.
      set (q := m / 8) in *. set (r0 := cbrt_bits f q) in *.
      assert (Hm8 : 8 * q <= m < 8 * q + 8).
      { pose proof (Z.div_mod m 8 ltac:(lia)). pose proof (Z.mod_pos_bound m 8 ltac:(lia)).
        unfold q. lia. }
      cbv zeta.
      destruct (Z.leb_spec ((2 * r0 + 1) * (2 * r0 + 1) * (2 * r0 + 1)) m) as [H1|H1].
      * split; [lia|]. split; [lia|]. nia.
      * split; [lia|]. split; [nia|lia].
Qed.

Lemma cbrt_spec (m : Z) :
  0 <= m -> 0 <= cbrt m /\ cbrt m * cbrt m * cbrt m <= m < (cbrt m + 1) * (cbrt m + 1) * (cbrt m + 1).
Proof.
  intros Hm. unfold cbrt. apply cbrt_bits_spec.
  split; [lia|].
  destruct (Z.eq_dec m 0) as [->|Hne].
  - simpl. lia.
  - rewrite Nat2Z.inj_succ, Z2Nat.id by apply Z.log2_nonneg.
    pose proof (Z.log2_spec m ltac:(lia)) as [_ Hlt].
    eapply Z.lt_le_trans; [exact Hlt|].
    apply Z.pow_le_mono_l. lia.
Qed.

Lemma cbrt_unique (m n : Z) :
  0 <= n -> n * n * n <= m < (n + 1) * (n + 1) * (n + 1) -> cbrt m = n.
Proof.
  intros Hn Hm.
  assert (Hm0 : 0 <= m) by nia.
  destruct (cbrt_spec m Hm0) as (Hc & Hlo & Hhi).
  destruct (Z.lt_trichotomy (cbrt m) n) as [Hlt|[Heq|Hgt]]; [|exact Heq|].
  - assert ((cbrt m + 1) * (cbrt m + 1) * (cbrt m + 1) <= n * n * n).
    { destruct (Z.eq_dec (cbrt m + 1) n) as [->|]; [lia|].
      apply Z.lt_le_incl, cube_mono; lia. }
    lia.
  - assert ((n + 1) * (n + 1) * (n + 1) <= cbrt m * cbrt m * cbrt m).
    { destruct (Z.eq_dec (n + 1) (cbrt m)) as [->|]; [lia|].
      apply Z.lt_le_incl, cube_mono; lia. }
    lia.
Qed.

(** [getLevelFromXP xp] is one more than the largest [n] with
    [100^2 * n^3 <= xp^2], that is, with [n <= (xp/100)^(2/3)]. *)
Lemma getLevelFromXP_char (xp n : Z) :
  0 <= n ->
  10000 * (n * n * n) <= xp * xp < 10000 * ((n + 1) * (n + 1) * (n + 1)) ->
  getLevelFromXP xp = n + 1.
Proof.
  intros Hn [Hlo Hhi]. unfold getLevelFromXP.
  change (LEVEL_BASE ^ LEVEL_MULTIPLIER_DEN) with 10000.
  change (xp ^ LEVEL_MULTIPLIER_DEN) with (xp ^ 2). rewrite Z.pow_2_r.
  f_equal. apply cbrt_unique; [exact Hn|].
  split.
  - apply Z.div_le_lower_bound; lia.
  - apply Z.div_lt_upper_bound; lia.
Qed.

(** [getXPForLevel level] is the largest [t] with
    [t^2 <= 100^2 * level^3], that is, with [t <= 100 * level^(3/2)]. *)
Lemma getXPForLevel_spec (level : Z) :
  0 <= level ->
  let t := getXPForLevel level in
  0 <= t /\ t * t <= 10000 * (level * level * level) < (t + 1) * (t + 1).
Proof.
  intros Hl. unfold getXPForLevel.
  change (LEVEL_BASE ^ LEVEL_MULTIPLIER_DEN) with 10000.
  change (level ^ LEVEL_MULTIPLIER_NUM) with (level ^ 3).
  replace (level ^ 3) with (level * level * level) by ring.
  cbv zeta. split; [apply Z.sqrt_nonneg|].
  apply Z.sqrt_spec. nia.
Qed.

Lemma threshold_gap (L t : Z) :
  1 <= L -> 0 <= t -> t * t <= 10000 * (L * L * L) ->
  4 * t <= 10000 * (3 * (L * L) - 3 * L + 1).
Proof.
  intros HL Ht Hlo.
  assert (HLL : 1 <= L * L) by (change 1 with (1 * 1); apply Z.mul_le_mono_nonneg; lia).
  assert (H3 : L * L * L <= (L * L) * (L * L)).
  { assert (HL2 : L <= L * L) by nia.
    apply Z.mul_le_mono_nonneg_l; lia. }
  assert (Ht2 : t <= 100 * (L * L)).
  { apply Z.square_le_simpl_nonneg; [lia|].
    replace (100 * (L * L) * (100 * (L * L))) with (10000 * ((L * L) * (L * L))) by ring.
    lia. }
  assert (HK : 0 <= (2 * L - 1) * (L - 1)) by (apply Z.mul_nonneg_nonneg; lia).
  replace ((2 * L - 1) * (L - 1)) with (2 * (L * L) - 3 * L + 1) in HK by ring.
  lia.
Qed.

(** One XP short of the threshold of level [L] the level is [L]. *)
Lemma level_below_threshold (L : Z) :
  1 <= L -> getLevelFromXP (getXPForLevel L - 1) = L.
Proof.
  intros HL.
  destruct (getXPForLevel_spec L ltac:(lia)) as (Ht0 & Hlo & Hhi).
  pose proof (threshold_gap L _ HL Ht0 Hlo) as Hgap.
  set (t := getXPForLevel L) in *.
  assert (Ht1 : 1 <= t).
  { destruct (Z.eq_dec t 0) as [E|]; [|lia]. rewrite E in Hhi.
    assert (1 <= L * L * L).
    { change 1 with (1 * 1 * 1). repeat apply Z.mul_le_mono_nonneg; lia. }
    lia. }
  enough (getLevelFromXP (t - 1) = (L - 1) + 1) by lia.
  apply getLevelFromXP_char; [lia|].
  replace ((L - 1 + 1) * (L - 1 + 1) * (L - 1 + 1)) with (L * L * L) by ring.
  replace ((L - 1) * (L - 1) * (L - 1))
    with (L * L * L - (3 * (L * L) - 3 * L + 1)) by ring.
  replace ((t - 1) * (t - 1)) with (t * t - 2 * t + 1) by ring.
  replace ((t + 1) * (t + 1)) with (t * t + 2 * t + 1) in Hhi by ring.
  lia.
Qed.

(** Where the floor in [getXPForLevel] rounds down, the level at the
    threshold itself is still [L]. *)
Lemma level_at_rounded_threshold (L : Z) :
  1 <= L ->
  getXPForLevel L * getXPForLevel L < 10000 * (L * L * L) ->
  getLevelFromXP (getXPForLevel L) = L.
Proof.
  intros HL Hstrict.
  destruct (getXPForLevel_spec L ltac:(lia)) as (Ht0 & Hlo & Hhi).
  pose proof (threshold_gap L _ HL Ht0 Hlo) as Hgap.
  set (t := getXPForLevel L) in *.
  enough (getLevelFromXP t = (L - 1) + 1) by lia.
  apply getLevelFromXP_char; [lia|].
  replace ((L - 1 + 1) * (L - 1 + 1) * (L - 1 + 1)) with (L * L * L) by ring.
  replace ((L - 1) * (L - 1) * (L - 1))
    with (L * L * L - (3 * (L * L) - 3 * L + 1)) by ring.
  replace ((t + 1) * (t + 1)) with (t * t + 2 * t + 1) in Hhi by ring.
  lia.
Qed.

Example getXPForLevel_samples :
  map getXPForLevel [0; 1; 2; 3; 4; 5] = [0; 100; 282; 519; 800; 1118].
Proof. vm_compute. reflexivity. Qed.

Example getLevelFromXP_samples :
  map getLevelFromXP [0; 99; 100; 281; 282; 283; 519; 520] = [1; 1; 2; 2; 2; 3; 3; 4].
Proof. vm_compute. reflexivity. Qed.

Example calculateXP_samples :
  map (fun d => calculateXP 40 30 d) [30; 15; 1; 0] = [40; 20; 1; 0]
  /\ calculateXP 25 30 15 = 13.
Proof. vm_compute. split; reflexivity. Qed.

(** C1 (the code departs from the claim).  The claim asks, for every level
    [L >= 1], that the level one XP below [getXPForLevel L] is [L] and
    that the level at [getXPForLevel L] is [L + 1].  The first half holds
    ([level_below_threshold]).  The second half fails at [L = 2]: the
    threshold is [floor (282.84...) = 282], and
    [(282 / 100)^(2/3) = 1.996...], so the level at 282 XP is still 2.
    By [level_at_rounded_threshold] the same happens at every level whose
    threshold was rounded down. *)
Theorem C1_threshold_of_level_2_keeps_level_2 :
  getXPForLevel 2 = 282
  /\ getLevelFromXP (getXPForLevel 2 - 1) = 2
  /\ getLevelFromXP (getXPForLevel 2) = 2
  /\ (getLevelFromXP (getXPForLevel 2) =? 2 + 1) = false.
Proof. vm_compute. repeat split; reflexivity. Qed.

(** ** Structure of one handler run *)

Ltac open_handler :=
  unfold applyActivityLog, handleLogActivity;
  destruct (find _ (allActivities _)) as [activityDef|] eqn:Hfind; [|discriminate];
  destruct (randomRewards _ _) as [[isCritical xp1] rs1] eqn:Hroll;
  destruct (streakLogic _ _ _ _) as [[newStreak xp2] rs2] eqn:Hstreak;
  destruct (dailyQuestLogic _ _ _ _) as [[dq xp3] rs3] eqn:Hquest;
  destruct (checkAchievements _ _ _ _ _ _) as [newUnlocked rs5] eqn:Hach.

(** What a successful run computes, stage by stage. *)
Lemma handleLogActivity_inv (gameState prev : UserState) (e : Env)
    (type : ActivityType) (duration : Z) (s' : UserState) (rs : list RewardEvent.t) :
  handleLogActivity gameState prev e type duration = Some (s', rs) ->
  exists activityDef,
    find (fun a => String.eqb (ActivityDef.type a) type) (allActivities gameState)
      = Some activityDef /\
    let baseXP :=
      calculateXP (ActivityDef.baseXP activityDef) (ActivityDef.baseDuration activityDef)
        duration in
    let r1 := randomRewards e baseXP in
    let r2 := streakLogic e gameState (snd (fst r1)) (snd r1) in
    let r3 := dailyQuestLogic gameState type (snd (fst r2)) (snd r2) in
    let earned := snd (fst r3) in
    let newLog := Log.mk (idStr e) type duration earned (nowMs e) (todayStr e) (fst (fst r1)) in
    let newLevel := getLevelFromXP (totalXP gameState + earned) in
    let rs4 :=
      if level gameState <? newLevel then
        snd r3 ++ [RewardEvent.mk LEVEL_UP ("Level " ++ string_of_Z newLevel ++ " Reached!")%string
                     None None]
      else snd r3 in
    exists tempState,
      let r5 :=
        checkAchievements ACHIEVEMENTS_LIST e tempState newLog
          (unlockedAchievements gameState) rs4 in
      level s' = newLevel
      /\ currentXP s' = currentXP prev + earned
      /\ totalXP s' = totalXP gameState + earned
      /\ logs s' = newLog :: logs prev
      /\ streak s' = fst (fst r2)
      /\ lastLoginDate s' = todayStr e
      /\ unlockedAchievements s' = fst r5
      /\ dailyQuests s' = fst (fst r3)
      /\ customActivities s' = customActivities prev
      /\ rs = snd r5.
Proof.
  open_handler. intros H. injection H as <- <-.
  exists activityDef. split; [reflexivity|].
  cbv zeta. rewrite Hroll. cbn [fst snd]. rewrite Hstreak. cbn [fst snd].
  rewrite Hquest. cbn [fst snd].
  eexists. rewrite Hach. cbn.
  repeat split; reflexivity.
Qed.

(** ** Random rewards *)

Lemma Qltb_lt (x y : Q) : Qltb x y = true <-> (x < y)%Q.
Proof.
  unfold Qltb. rewrite negb_true_iff. split.
  - intros H. apply Qnot_le_lt. intros Hle. apply Qle_bool_iff in Hle. congruence.
  - intros H. destruct (Qle_bool y x) eqn:E; [|reflexivity].
    apply Qle_bool_iff in E. exfalso. exact (Qlt_not_le _ _ H E).
Qed.

Lemma Qltb_ge (x y : Q) : Qltb x y = false <-> (y <= x)%Q.
Proof.
  unfold Qltb. rewrite negb_false_iff. apply Qle_bool_iff.
Qed.

(** [Math.floor(x) = k] exactly when [k <= x < k + 1]. *)
Lemma Qfloor_eq_iff (x : Q) (k : Z) :
  Qfloor x = k <-> (inject_Z k <= x < inject_Z (k + 1))%Q.
Proof.
  split.
  - intros <-. split; [apply Qfloor_le | apply Qlt_floor].
  - intros [Hlo Hhi].
    pose proof (Qfloor_le x) as H1. pose proof (Qlt_floor x) as H2.
    assert (Ha : (inject_Z k < inject_Z (Qfloor x + 1))%Q) by (eapply Qle_lt_trans; eauto).
    assert (Hb : (inject_Z (Qfloor x) < inject_Z (k + 1))%Q) by (eapply Qle_lt_trans; eauto).
    rewrite <- Zlt_Qlt in Ha, Hb. lia.
Qed.

Lemma Qfloor_scaled_range (x : Q) (n : Z) :
  0 < n -> (0 <= x < 1)%Q -> 0 <= Qfloor (x * inject_Z n) < n.
Proof.
  intros Hn [H0 H1].
  assert (Hn' : (0 < inject_Z n)%Q) by (rewrite (Zlt_Qlt 0 n) in Hn; exact Hn).
  split.
  - change 0 with (Qfloor 0). apply Qfloor_resp_le.
    apply Qmult_le_0_compat; [exact H0 | apply Qlt_le_weak; exact Hn'].
  - assert (Hlt : (x * inject_Z n < inject_Z n)%Q).
    { rewrite <- (Qmult_1_l (inject_Z n)) at 2. apply Qmult_lt_compat_r; assumption. }
    pose proof (Qfloor_le (x * inject_Z n)) as Hf.
    assert (Hc : (inject_Z (Qfloor (x * inject_Z n)) < inject_Z n)%Q)
      by (eapply Qle_lt_trans; eauto).
    rewrite <- Zlt_Qlt in Hc. exact Hc.
Qed.

Lemma nth_Z_in_range {A} (l : list A) (i : Z) :
  0 <= i < Z.of_nat (List.length l) ->
  exists x, nth_Z l i = Some x /\ nth_error l (Z.to_nat i) = Some x.
Proof.
  intros Hi. unfold nth_Z.
  destruct (Z.ltb_spec i 0); [lia|].
  destruct (nth_error l (Z.to_nat i)) as [x|] eqn:E.
  - exists x. split; reflexivity.
  - apply nth_error_None in E. lia.
Qed.

(** ** What each later section adds to the reward list *)

Lemma countType_app (ty : RewardType) (a b : list RewardEvent.t) :
  countType ty (a ++ b) = (countType ty a + countType ty b)%nat.
Proof. unfold countType. rewrite filter_app, length_app. reflexivity. Qed.

Lemma streakLogic_rewards (e : Env) (g : UserState) (xp : Z) (rs : list RewardEvent.t) :
  exists extra bonus,
    snd (streakLogic e g xp rs) = rs ++ extra
    /\ snd (fst (streakLogic e g xp rs)) = xp + bonus
    /\ (bonus = 0 \/ bonus = 100)
    /\ Forall (fun r => RewardEvent.type r = BONUS /\ RewardEvent.xp r = Some 100) extra.
Proof.
  unfold streakLogic.
  destruct (negb (lastLoginDate g =? todayStr e)%string).
  - destruct ((0 <? _) && _).
    + eexists. exists 100. cbn [fst snd].
      split; [reflexivity|]. split; [reflexivity|]. split; [now right|]. repeat constructor.
    + exists [], 0. rewrite app_nil_r, Z.add_0_r.
      split; [reflexivity|]. split; [reflexivity|]. split; [now left|constructor].
  - exists [], 0. rewrite app_nil_r, Z.add_0_r.
    split; [reflexivity|]. split; [reflexivity|]. split; [now left|constructor].
Qed.

Lemma dailyQuestLogic_rewards (g : UserState) (type : ActivityType) (xp : Z)
    (rs : list RewardEvent.t) :
  exists extra bonus,
    snd (dailyQuestLogic g type xp rs) = rs ++ extra
    /\ snd (fst (dailyQuestLogic g type xp rs)) = xp + bonus
    /\ (bonus = 0 \/ bonus = 80)
    /\ Forall (fun r => RewardEvent.type r = QUEST_COMPLETE /\ RewardEvent.xp r = Some 80)
         extra.
Proof.
  unfold dailyQuestLogic.
  destruct (_ && negb (includes _ _)).
  - destruct (_ && negb (DailyQuestState.bonusClaimed _)).
    + eexists. exists 80. cbn [fst snd].
      split; [reflexivity|]. split; [reflexivity|]. split; [now right|]. repeat constructor.
    + exists [], 0. rewrite app_nil_r, Z.add_0_r.
      split; [reflexivity|]. split; [reflexivity|]. split; [now left|constructor].
  - exists [], 0. rewrite app_nil_r, Z.add_0_r.
    split; [reflexivity|]. split; [reflexivity|]. split; [now left|constructor].
Qed.

Lemma checkAchievements_rewards (achs : list Achievement.t) (e : Env)
    (tempState : UserState) (newLog : Log.t) :
  forall (unlocked : list string) (rs : list RewardEvent.t),
  exists new extra,
    checkAchievements achs e tempState newLog unlocked rs = (unlocked ++ new, rs ++ extra)
    /\ Forall (fun r => RewardEvent.type r = BONUS /\ RewardEvent.xp r = None) extra.
Proof.
  unfold checkAchievements.
  induction achs as [|ach achs IH]; intros unlocked rs.
  - exists [], []. rewrite !app_nil_r. split; [reflexivity|constructor].
  - cbn [fold_left]. unfold checkAchievement at 2.
    destruct (negb (includes unlocked (Achievement.id ach)) && _).
    + destruct (IH (unlocked ++ [Achievement.id ach])
                  (rs ++ [RewardEvent.mk BONUS ("Achievement: " ++ Achievement.title ach)%string
                            None None]))
        as (new & extra & Heq & Hall).
      eexists (_ :: new), (_ :: extra). rewrite Heq, <- !app_assoc. cbn [app].
      split; [reflexivity|]. constructor; [split; reflexivity|exact Hall].
    + apply IH.
Qed.

(** One run of the handler, section by section: the reward list is the
    roll's rewards, then the streak bonus, the quest bonus, the level-up
    event and the achievement events; the XP of the new log is the roll's
    XP plus the two bonuses and is added to both XP counters. *)
Lemma applyActivityLog_structure (s : UserState) (e : Env) (type : ActivityType)
    (duration : Z) (s' : UserState) (rs : list RewardEvent.t) :
  applyActivityLog s e type duration = Some (s', rs) ->
  exists activityDef newLog streakBonus questBonus streakRs questRs achRs new,
    find (fun a => String.eqb (ActivityDef.type a) type) (allActivities s) = Some activityDef
    /\ let r1 :=
         randomRewards e
           (calculateXP (ActivityDef.baseXP activityDef) (ActivityDef.baseDuration activityDef)
              duration) in
       rs = snd r1 ++ streakRs ++ questRs
              ++ (if level s <? level s'
                  then [RewardEvent.mk LEVEL_UP
                          ("Level " ++ string_of_Z (level s') ++ " Reached!")%string None None]
                  else [])
              ++ achRs
       /\ Forall (fun r => RewardEvent.type r = BONUS /\ RewardEvent.xp r = Some 100) streakRs
       /\ Forall (fun r => RewardEvent.type r = QUEST_COMPLETE /\ RewardEvent.xp r = Some 80)
            questRs
       /\ Forall (fun r => RewardEvent.type r = BONUS /\ RewardEvent.xp r = None) achRs
       /\ (streakBonus = 0 \/ streakBonus = 100)
       /\ (questBonus = 0 \/ questBonus = 80)
       /\ logs s' = newLog :: logs s
       /\ Log.isCritical newLog = fst (fst r1)
       /\ Log.xpEarned newLog = snd (fst r1) + streakBonus + questBonus
       /\ totalXP s' = totalXP s + Log.xpEarned newLog
       /\ currentXP s' = currentXP s + Log.xpEarned newLog
       /\ level s' = getLevelFromXP (totalXP s')
       /\ unlockedAchievements s' = unlockedAchievements s ++ new
       /\ (exists xp2 rs2,
             dailyQuests s' = fst (fst (dailyQuestLogic s type xp2 rs2))
             /\ snd (dailyQuestLogic s type xp2 rs2) = rs2 ++ questRs)
       /\ (exists tempState rs4,
             unlockedAchievements s'
             = fst (checkAchievements ACHIEVEMENTS_LIST e tempState newLog
                      (unlockedAchievements s) rs4)).
Proof.
  intros H. apply handleLogActivity_inv in H.
  destruct H as (activityDef & Hfind & H). cbv zeta in H.
  destruct H as (tempState & Hlevel & Hcur & Htot & Hlogs & _ & _ & Hunl & Hdq & _ & Hrs).
  pose proof Hunl as Hunl0.
  set (r1 := randomRewards e _) in *.
  destruct (streakLogic_rewards e s (snd (fst r1)) (snd r1)) as (x2 & b2 & E2 & X2 & B2 & A2).
  set (r2 := streakLogic e s _ _) in *.
  destruct (dailyQuestLogic_rewards s type (snd (fst r2)) (snd r2))
    as (x3 & b3 & E3 & X3 & B3 & A3).
  set (r3 := dailyQuestLogic s type _ _) in *.
  match type of Hrs with
  | _ = snd (checkAchievements _ _ ?t ?l ?u ?r) =>
      destruct (checkAchievements_rewards ACHIEVEMENTS_LIST e t l u r) as (new & x5 & E5 & A5)
  end.
  rewrite E5 in Hrs, Hunl. cbn [fst snd] in Hrs, Hunl.
  exists activityDef. eexists. exists b2, b3, x2, x3, x5, new.
  split; [exact Hfind|]. cbv zeta. fold r1.
  assert (Hearned : snd (fst r3) = snd (fst r1) + b2 + b3) by (rewrite X3, X2; reflexivity).
  split.
  { rewrite Hrs, Hlevel. destruct (level s <? _); rewrite E3, E2, <- ?app_assoc; reflexivity. }
  repeat (split; [assumption|]).
  split; [exact Hlogs|]. cbn [Log.isCritical Log.xpEarned].
  split; [reflexivity|]. split; [exact Hearned|].
  split; [exact Htot|]. split; [exact Hcur|].
  split; [rewrite Hlevel, Htot; reflexivity|].
  split; [exact Hunl|].
  split.
  - exists (snd (fst r2)), (snd r2). split; [exact Hdq | exact E3].
  - eexists. eexists. exact Hunl0.
Qed.

(** The four cases of the roll, on the section's own inputs. *)
Lemma randomRewards_cases (e : Env) (baseXP : Z) :
  (0 <= roll2 e < 1)%Q ->
  ((roll e < 0.10)%Q ->
     randomRewards e baseXP =
       (true, 2 * baseXP,
        [RewardEvent.mk CRITICAL "Critical Success! XP Doubled!" (Some (2 * baseXP)) None]))
  /\ ((0.10 <= roll e < 0.25)%Q ->
        exists bonus,
          10 <= bonus <= 29
          /\ (inject_Z (bonus - 10) <= roll2 e * 20 < inject_Z (bonus - 9))%Q
          /\ randomRewards e baseXP =
               (false, baseXP + bonus,
                [RewardEvent.mk BONUS "Bonus Focus!" (Some bonus) None]))
  /\ ((0.25 <= roll e < 0.30)%Q ->
        exists i item,
          0 <= i < 6
          /\ (inject_Z i <= roll2 e * 6 < inject_Z (i + 1))%Q
          /\ nth_error LOOT_TABLE (Z.to_nat i) = Some item
          /\ randomRewards e baseXP =
               (false, baseXP,
                [RewardEvent.mk ITEM "You found an item!" None (Some item)]))
  /\ ((0.30 <= roll e)%Q -> randomRewards e baseXP = (false, baseXP, []))
  /\ (List.length (snd (randomRewards e baseXP)) <= 1)%nat.
Proof.
  intros Hr2. unfold randomRewards.
  destruct (Qltb (roll e) 0.10) eqn:E1;
    [apply Qltb_lt in E1 | apply Qltb_ge in E1;
     destruct (Qltb (roll e) 0.25) eqn:E2;
       [apply Qltb_lt in E2 | apply Qltb_ge in E2;
        destruct (Qltb (roll e) 0.30) eqn:E3;
          [apply Qltb_lt in E3 | apply Qltb_ge in E3]]].
  - (* critical *)
    repeat split.
    + intros _. rewrite (Z.mul_comm baseXP 2). reflexivity.
    + intros [H _]. exfalso. exact (Qlt_not_le _ _ E1 H).
    + intros [H _]. exfalso. apply (Qlt_not_le _ _ E1). eapply Qle_trans; [|exact H]. discriminate.
    + intros H. exfalso. apply (Qlt_not_le _ _ E1). eapply Qle_trans; [|exact H]. discriminate.
    + simpl. lia.
  - (* bonus *)
    repeat split.
    + intros H. exfalso. exact (Qlt_not_le _ _ H E1).
    + intros _. exists (Qfloor (roll2 e * 20) + 10).
      pose proof (Qfloor_scaled_range (roll2 e) 20 ltac:(lia) Hr2) as Hrange.
      change (inject_Z 20) with 20%Q in Hrange.
      split; [lia|]. split; [|reflexivity].
      replace (Qfloor (roll2 e * 20) + 10 - 10) with (Qfloor (roll2 e * 20)) by lia.
      replace (Qfloor (roll2 e * 20) + 10 - 9) with (Qfloor (roll2 e * 20) + 1) by lia.
      apply Qfloor_eq_iff. reflexivity.
    + intros [H _]. exfalso. exact (Qlt_not_le _ _ E2 H).
    + intros H. exfalso. apply (Qlt_not_le _ _ E2). eapply Qle_trans; [|exact H]. discriminate.
    + simpl. lia.
  - (* loot *)
    repeat split.
    + intros H. exfalso. exact (Qlt_not_le _ _ H E1).
    + intros [_ H]. exfalso. exact (Qlt_not_le _ _ H E2).
    + intros _.
      pose proof (Qfloor_scaled_range (roll2 e) 6 ltac:(lia) Hr2) as Hrange.
      change (inject_Z (Z.of_nat (List.length LOOT_TABLE))) with (inject_Z 6).
      destruct (nth_Z_in_range LOOT_TABLE (Qfloor (roll2 e * inject_Z 6)) Hrange)
        as (item & Hitem & Hnth).
      exists (Qfloor (roll2 e * inject_Z 6)), item.
      split; [exact Hrange|]. split; [apply Qfloor_eq_iff; reflexivity|].
      split; [exact Hnth|]. rewrite Hitem. reflexivity.
    + intros H. exfalso. exact (Qlt_not_le _ _ E3 H).
    + simpl. lia.
  - (* none *)
    repeat split.
    + intros H. exfalso. exact (Qlt_not_le _ _ H E1).
    + intros [_ H]. exfalso. exact (Qlt_not_le _ _ H E2).
    + intros [_ H]. exfalso. exact (Qlt_not_le _ _ H E3).
    + simpl. lia.
Qed.

(** C5.  For every logged activity, with the draws [roll] and [roll2] taken
    as inputs ([roll2] in [0,1)): the rewards of the run are the roll's
    rewards followed by the rewards of the later sections, which contain
    no critical and no item event; the roll produces at most one reward;
    if [roll < 0.10] the XP is exactly doubled, the log is flagged critical
    and the one reward is a critical event; if [0.10 <= roll < 0.25] an
    integer bonus in [10,29] is added, value [b] being drawn exactly when
    [roll2] falls in the interval [(b-10)/20, (b-9)/20) of length 1/20,
    and the one reward is a bonus event; if [0.25 <= roll < 0.30] the XP
    is unchanged and the one reward is an item event carrying the entry of
    [LOOT_TABLE] selected by [roll2]; if [roll >= 0.30] there is no roll
    reward and the XP is unchanged. *)
Theorem C5_roll_reward (s : UserState) (e : Env) (type : ActivityType) (duration : Z)
    (s' : UserState) (rs : list RewardEvent.t) :
  (0 <= roll2 e < 1)%Q ->
  applyActivityLog s e type duration = Some (s', rs) ->
  exists activityDef newLog isCritical rollXP rollRewards rest,
    find (fun a => String.eqb (ActivityDef.type a) type) (allActivities s) = Some activityDef
    /\ let baseXP :=
         calculateXP (ActivityDef.baseXP activityDef) (ActivityDef.baseDuration activityDef)
           duration in
       randomRewards e baseXP = (isCritical, rollXP, rollRewards)
       /\ rs = rollRewards ++ rest
       /\ Forall (fun r => RewardEvent.type r <> CRITICAL /\ RewardEvent.type r <> ITEM) rest
       /\ logs s' = newLog :: logs s
       /\ Log.isCritical newLog = isCritical
       /\ (exists streakBonus questBonus,
             (streakBonus = 0 \/ streakBonus = 100)
             /\ (questBonus = 0 \/ questBonus = 80)
             /\ Log.xpEarned newLog = rollXP + streakBonus + questBonus)
       /\ (List.length rollRewards <= 1)%nat
       /\ ((roll e < 0.10)%Q ->
             isCritical = true /\ rollXP = 2 * baseXP
             /\ rollRewards =
                  [RewardEvent.mk CRITICAL "Critical Success! XP Doubled!" (Some rollXP) None])
       /\ ((0.10 <= roll e < 0.25)%Q ->
             exists bonus,
               10 <= bonus <= 29
               /\ (inject_Z (bonus - 10) <= roll2 e * 20 < inject_Z (bonus - 9))%Q
               /\ isCritical = false /\ rollXP = baseXP + bonus
               /\ rollRewards = [RewardEvent.mk BONUS "Bonus Focus!" (Some bonus) None])
       /\ ((0.25 <= roll e < 0.30)%Q ->
             exists i item,
               0 <= i < 6
               /\ (inject_Z i <= roll2 e * 6 < inject_Z (i + 1))%Q
               /\ nth_error LOOT_TABLE (Z.to_nat i) = Some item
               /\ isCritical = false /\ rollXP = baseXP
               /\ rollRewards = [RewardEvent.mk ITEM "You found an item!" None (Some item)])
       /\ ((0.30 <= roll e)%Q -> isCritical = false /\ rollXP = baseXP /\ rollRewards = []).
Proof.
  intros Hr2 H.
  destruct (applyActivityLog_structure _ _ _ _ _ _ H)
    as (activityDef & newLog & b2 & b3 & x2 & x3 & x5 & new & Hfind & Hst).
  cbv zeta in Hst.
  destruct Hst as (Hrs & A2 & A3 & A5 & B2 & B3 & Hlogs & Hcrit & Hxp & _).
  set (baseXP := calculateXP _ _ _) in *.
  set (x4 := if level s <? level s' then _ else _) in Hrs.
  assert (Hno : Forall (fun r => RewardEvent.type r <> CRITICAL /\ RewardEvent.type r <> ITEM)
                  (x2 ++ x3 ++ x4 ++ x5)).
  { rewrite !Forall_app. repeat split.
    - eapply Forall_impl; [|exact A2]. intros r [-> _]. split; discriminate.
    - eapply Forall_impl; [|exact A3]. intros r [-> _]. split; discriminate.
    - subst x4. destruct (level s <? level s'); repeat constructor; discriminate.
    - eapply Forall_impl; [|exact A5]. intros r [-> _]. split; discriminate. }
  assert (Hxp' : exists streakBonus questBonus,
            (streakBonus = 0 \/ streakBonus = 100)
            /\ (questBonus = 0 \/ questBonus = 80)
            /\ Log.xpEarned newLog = snd (fst (randomRewards e baseXP)) + streakBonus + questBonus)
    by (exists b2, b3; auto).
  clear Hxp. rename Hxp' into Hxp.
  destruct (randomRewards_cases e baseXP Hr2) as (C1 & C2 & C3 & C4 & Hlen).
  destruct (randomRewards e baseXP) as [[isCritical rollXP] rollRewards] eqn:Hroll.
  cbn [fst snd] in *.
  exists activityDef, newLog, isCritical, rollXP, rollRewards, (x2 ++ x3 ++ x4 ++ x5).
  split; [exact Hfind|]. cbv zeta. fold baseXP. rewrite Hroll.
  repeat (split; [assumption || reflexivity|]).
  split; [|split; [|split]].
  - intros Hc. specialize (C1 Hc). injection C1 as -> -> ->. repeat split.
  - intros Hc. destruct (C2 Hc) as (bonus & Hb & Hint & Heq).
    exists bonus. injection Heq as -> -> ->. repeat split; tauto || lia.
  - intros Hc. destruct (C3 Hc) as (i & item & Hi & Hint & Hnth & Heq).
    exists i, item. injection Heq as -> -> ->. repeat split; tauto || lia.
  - intros Hc. specialize (C4 Hc). injection C4 as -> -> ->. repeat split.
Qed.

Lemma C5_roll_reward_witness :
  (0 <= roll2 env_critical < 1)%Q
  /\ exists s' rs,
       applyActivityLog INITIAL_STATE env_critical "Workout" 30 = Some (s', rs)
       /\ exists rollRewards rest,
            rs = rollRewards ++ rest /\ (List.length rollRewards <= 1)%nat.
Proof.
  assert (H2 : (0 <= roll2 env_critical < 1)%Q) by (split; [discriminate | reflexivity]).
  split; [exact H2|].
  eexists. eexists. split; [vm_compute; reflexivity|].
  destruct (C5_roll_reward INITIAL_STATE env_critical "Workout" 30 _ _ H2 eq_refl)
    as (activityDef & newLog & isCritical & rollXP & rollRewards & rest & _ & Hc).
  cbv zeta in Hc. destruct Hc as (_ & Hrs & _ & _ & _ & _ & Hlen & _).
  exists rollRewards, rest. split; [exact Hrs | exact Hlen].
Defined.

(** ** Streak *)



(** ** Level *)

Lemma countType_none (ty : RewardType) (l : list RewardEvent.t) :
  Forall (fun r => RewardEvent.type r <> ty) l -> countType ty l = 0%nat.
Proof.
  unfold countType. induction 1 as [|r l Hr _ IH]; [reflexivity|].
  cbn [filter]. destruct (RewardType_eqb (RewardEvent.type r) ty) eqn:E; [|exact IH].
  exfalso. apply Hr. destruct (RewardEvent.type r), ty; (reflexivity || discriminate).
Qed.

Lemma randomRewards_types (e : Env) (baseXP : Z) :
  Forall (fun r => RewardEvent.type r = CRITICAL \/ RewardEvent.type r = BONUS
                   \/ RewardEvent.type r = ITEM)
    (snd (randomRewards e baseXP)).
Proof.
  unfold randomRewards.
  repeat (destruct (Qltb _ _)); cbn [snd];
    repeat (apply Forall_cons; [cbn; auto|]); apply Forall_nil.
Qed.



(** ** Daily quests *)

Lemma includes_In (l : list string) (x : string) : includes l x = true <-> In x l.
Proof.
  unfold includes. rewrite existsb_exists. split.
  - intros (y & Hy & E). apply String.eqb_eq in E. subst. exact Hy.
  - intros H. exists x. split; [exact H | apply String.eqb_refl].
Qed.

Lemma isQuestType_In (type : ActivityType) :
  existsb (fun q => String.eqb q type) DAILY_QUESTS = true <-> In type DAILY_QUESTS.
Proof.
  rewrite existsb_exists. split.
  - intros (y & Hy & E). apply String.eqb_eq in E. subst. exact Hy.
  - intros H. exists type. split; [exact H | apply String.eqb_refl].
Qed.

Lemma NoDup_DAILY_QUESTS : NoDup DAILY_QUESTS.
Proof. repeat constructor; cbn; intuition discriminate. Qed.

(** In a tracker the handler keeps, four completed quests are all four
    quest types. *)
Lemma allQuestsDone_length (dq : DailyQuestState.t) :
  NoDup (DailyQuestState.completed dq) ->
  incl (DailyQuestState.completed dq) DAILY_QUESTS ->
  (allQuestsDone dq = true <-> List.length (DailyQuestState.completed dq) = 4%nat).
Proof.
  intros Hnd Hincl. unfold allQuestsDone. rewrite forallb_forall.
  pose proof (NoDup_incl_length Hnd Hincl) as Hle. change (List.length DAILY_QUESTS) with 4%nat in Hle.
  split.
  - intros Hall.
    assert (Hincl' : incl DAILY_QUESTS (DailyQuestState.completed dq)).
    { intros q Hq. apply includes_In, Hall, Hq. }
    pose proof (NoDup_incl_length NoDup_DAILY_QUESTS Hincl') as Hge.
    change (List.length DAILY_QUESTS) with 4%nat in Hge. lia.
  - intros Hlen q Hq. apply includes_In.
    refine (NoDup_length_incl Hnd _ Hincl q Hq).
    rewrite Hlen. apply Nat.le_refl.
Qed.

Lemma questTrackerOk_le4 (dq : DailyQuestState.t) :
  questTrackerOk dq -> (List.length (DailyQuestState.completed dq) <= 4)%nat.
Proof.
  intros (Hnd & Hincl & _). exact (NoDup_incl_length Hnd Hincl).
Qed.

(** One run of the quest section on a tracker the handler keeps. *)
Lemma dailyQuestLogic_step (g : UserState) (type : ActivityType) (xp : Z)
    (rs : list RewardEvent.t) :
  questTrackerOk (dailyQuests g) ->
  let r := dailyQuestLogic g type xp rs in
  questTrackerOk (fst (fst r))
  /\ (allQuestsDone (dailyQuests g) = true -> allQuestsDone (fst (fst r)) = true)
  /\ exists extra,
       snd r = rs ++ extra
       /\ countType QUEST_COMPLETE extra =
            (if allQuestsDone (fst (fst r)) && negb (allQuestsDone (dailyQuests g))
             then 1%nat else 0%nat).
Proof.
  intros Hok. pose proof Hok as (Hnd & Hincl & Hclaimed).
  pose proof (allQuestsDone_length _ Hnd Hincl) as Hdone.
  pose proof (questTrackerOk_le4 _ Hok) as Hle.
  cbv zeta. unfold dailyQuestLogic. cbv zeta.
  destruct (existsb (fun q : string => (q =? type)%string) DAILY_QUESTS) eqn:Eq; cbn [andb].
  2:{ cbv zeta. cbn [fst snd]. split; [exact Hok|]. split; [tauto|].
      exists []. rewrite app_nil_r. split; [reflexivity|].
      destruct (allQuestsDone (dailyQuests g)); reflexivity. }
  destruct (includes _ type) eqn:Ei; cbn [negb].
  { cbv zeta. cbn [fst snd]. split; [exact Hok|]. split; [tauto|].
    exists []. rewrite app_nil_r. split; [reflexivity|].
    destruct (allQuestsDone (dailyQuests g)); reflexivity. }
  apply isQuestType_In in Eq.
  assert (Hnotin : ~ In type (DailyQuestState.completed (dailyQuests g))).
  { intros Hin. apply includes_In in Hin. congruence. }
  set (completed := DailyQuestState.completed (dailyQuests g) ++ [type]).
  assert (Hnd' : NoDup completed).
  { unfold completed. apply NoDup_app; [exact Hnd|repeat constructor; cbn; tauto|].
    intros x Hx [<-|[]]. exact (Hnotin Hx). }
  assert (Hincl' : incl completed DAILY_QUESTS).
  { unfold completed. apply incl_app; [exact Hincl|]. intros x [<-|[]]. exact Eq. }
  assert (Hlen' : List.length completed = S (List.length (DailyQuestState.completed (dailyQuests g)))).
  { unfold completed. rewrite length_app. cbn. lia. }
  pose proof (NoDup_incl_length Hnd' Hincl') as Hle'.
  change (List.length DAILY_QUESTS) with 4%nat in Hle'.
  assert (Hunclaimed : DailyQuestState.bonusClaimed (dailyQuests g) = false).
  { destruct (DailyQuestState.bonusClaimed (dailyQuests g)); [|reflexivity].
    assert (List.length (DailyQuestState.completed (dailyQuests g)) = 4%nat) by tauto. lia. }
  assert (Hnotdone : allQuestsDone (dailyQuests g) = false).
  { destruct (allQuestsDone (dailyQuests g)); [|reflexivity].
    assert (List.length (DailyQuestState.completed (dailyQuests g)) = 4%nat) by tauto. lia. }
  rewrite Hunclaimed, Hnotdone. cbn [negb]. rewrite andb_true_r.
  destruct (Z.eqb_spec (Z.of_nat (List.length completed)) 4) as [E4|E4]; cbv zeta; cbn [fst snd].
  - assert (Hok' : questTrackerOk (DailyQuestState.mk
                     (DailyQuestState.dateStr (dailyQuests g)) completed true)).
    { split; [exact Hnd'|]. split; [exact Hincl'|]. cbn. split; intros; [lia|reflexivity]. }
    split; [exact Hok'|]. split; [discriminate|].
    eexists. split; [reflexivity|].
    rewrite ?andb_true_r.
    rewrite (proj2 (allQuestsDone_length (DailyQuestState.mk _ completed true) Hnd' Hincl'))
      by (cbn; lia).
    reflexivity.
  - assert (Hok' : questTrackerOk (DailyQuestState.mk
                     (DailyQuestState.dateStr (dailyQuests g)) completed false)).
    { split; [exact Hnd'|]. split; [exact Hincl'|]. cbn. split; intros; [discriminate|lia]. }
    split; [exact Hok'|]. split; [discriminate|].
    exists []. rewrite app_nil_r. split; [reflexivity|].
    rewrite ?andb_true_r.
    destruct (allQuestsDone (DailyQuestState.mk _ completed false)) eqn:Ed; [|reflexivity].
    apply (allQuestsDone_length (DailyQuestState.mk _ completed false) Hnd' Hincl') in Ed.
    cbn in Ed. lia.
Qed.

(** One handler call on a tracker the handler keeps. *)
Lemma applyActivityLog_quests (s : UserState) (e : Env) (type : ActivityType)
    (duration : Z) :
  questTrackerOk (dailyQuests s) ->
  let r := applyActivityLog s e type duration in
  let s' := stateAfter s r in
  questTrackerOk (dailyQuests s')
  /\ (allQuestsDone (dailyQuests s) = true -> allQuestsDone (dailyQuests s') = true)
  /\ countType QUEST_COMPLETE (rewardsOf r) =
       (if allQuestsDone (dailyQuests s') && negb (allQuestsDone (dailyQuests s))
        then 1%nat else 0%nat)
  /\ Forall (fun x => RewardEvent.type x = QUEST_COMPLETE -> RewardEvent.xp x = Some 80)
       (rewardsOf r).
Proof.
  intros Hok. cbv zeta.
  destruct (applyActivityLog s e type duration) as [[s' rs]|] eqn:H; cbn [stateAfter rewardsOf].
  2:{ split; [exact Hok|]. split; [tauto|]. split; [|constructor].
      destruct (allQuestsDone (dailyQuests s)); reflexivity. }
  destruct (applyActivityLog_structure _ _ _ _ _ _ H)
    as (activityDef & newLog & b2 & b3 & x2 & x3 & x5 & new & _ & Hst).
  cbv zeta in Hst.
  destruct Hst as (Hrs & A2 & A3 & A5 & _ & _ & _ & _ & _ & _ & _ & _ & _ & Hq & _).
  destruct Hq as (xp2 & rs2 & Hdq & Hsnd).
  destruct (dailyQuestLogic_step s type xp2 rs2 Hok) as (Hok' & Hmono & extra & Hsnd' & Hcount).
  rewrite Hsnd in Hsnd'. apply app_inv_head in Hsnd'. subst extra.
  rewrite <- Hdq in Hok', Hmono, Hcount.
  pose proof (randomRewards_types e
                (calculateXP (ActivityDef.baseXP activityDef)
                   (ActivityDef.baseDuration activityDef) duration)) as A1.
  set (x1 := snd (randomRewards e _)) in *.
  split; [exact Hok'|]. split; [exact Hmono|]. split.
  - rewrite Hrs, !countType_app.
    rewrite (countType_none QUEST_COMPLETE x1), (countType_none QUEST_COMPLETE x2),
      (countType_none QUEST_COMPLETE x5), Hcount.
    + destruct (level s <? level s'); cbn; lia.
    + eapply Forall_impl; [|exact A5]. intros r [-> _]. discriminate.
    + eapply Forall_impl; [|exact A2]. intros r [-> _]. discriminate.
    + eapply Forall_impl; [|exact A1]. intros r [-> | [-> | ->]]; discriminate.
  - rewrite Hrs, !Forall_app. repeat split.
    + eapply Forall_impl; [|exact A1]. intros r [E | [E | E]] E'; congruence.
    + eapply Forall_impl; [|exact A2]. intros r [E _] E'; congruence.
    + eapply Forall_impl; [|exact A3]. intros r [_ E] _; exact E.
    + destruct (level s <? level s'); repeat constructor. cbn. discriminate.
    + eapply Forall_impl; [|exact A5]. intros r [E _] E'; congruence.
Qed.

(** Between two resets of the tracker.  Over every sequence of handler
    calls that starts from a tracker as the handler keeps it, the +80
    [QUEST_COMPLETE] reward is emitted exactly once if the sequence makes
    the completed set reach all four quest types and not at all
    otherwise.  The handler never empties the tracker, so this counts per
    tracker, whatever the dates of the calls. *)
Lemma quest_bonus_once_per_tracker (s : UserState) (evs : list LogEvent) :
  questTrackerOk (dailyQuests s) ->
  let s' := fst (runLogs s evs) in
  let rs := snd (runLogs s evs) in
  questTrackerOk (dailyQuests s')
  /\ (allQuestsDone (dailyQuests s) = true -> allQuestsDone (dailyQuests s') = true)
  /\ countType QUEST_COMPLETE rs =
       (if allQuestsDone (dailyQuests s') && negb (allQuestsDone (dailyQuests s))
        then 1%nat else 0%nat)
  /\ Forall (fun x => RewardEvent.type x = QUEST_COMPLETE -> RewardEvent.xp x = Some 80) rs.
Proof.
  revert s. induction evs as [|ev evs IH]; intros s Hok; cbv zeta.
  - cbn [runLogs fst snd]. split; [exact Hok|]. split; [tauto|]. split; [|constructor].
    destruct (allQuestsDone (dailyQuests s)); reflexivity.
  - cbn [runLogs].
    destruct (applyActivityLog_quests s (ev_env ev) (ev_type ev) (ev_duration ev) Hok)
      as (Hok1 & Hmono1 & Hcount1 & Hxp1).
    set (r := applyActivityLog s (ev_env ev) (ev_type ev) (ev_duration ev)) in *.
    set (s1 := stateAfter s r) in *.
    specialize (IH s1 Hok1). cbv zeta in IH.
    destruct (runLogs s1 evs) as [s' rs'] eqn:Hrun. cbn [fst snd] in *.
    destruct IH as (Hok' & Hmono' & Hcount' & Hxp').
    split; [exact Hok'|]. split; [tauto|]. split.
    + rewrite countType_app, Hcount1, Hcount'.
      destruct (allQuestsDone (dailyQuests s)) eqn:E0;
        destruct (allQuestsDone (dailyQuests s1)) eqn:E1;
        destruct (allQuestsDone (dailyQuests s')) eqn:E2; cbn;
        solve [ reflexivity
              | discriminate (Hmono1 eq_refl)
              | discriminate (Hmono' eq_refl) ].
    + apply Forall_app. split; assumption.
Qed.

Example quest_bonus_on_a_fresh_day :
  countType QUEST_COMPLETE (snd (runLogs INITIAL_STATE five_logs)) = 1%nat
  /\ countType QUEST_COMPLETE (snd (runLogs INITIAL_STATE (firstn 4 five_logs))) = 1%nat
  /\ countType QUEST_COMPLETE (snd (runLogs INITIAL_STATE (firstn 3 five_logs))) = 0%nat.
Proof. vm_compute. repeat split; reflexivity. Qed.

(** C6 (the code departs from the claim).  The claim asks that within one
    calendar day the +80 reward is emitted exactly once, on the log that
    completes the four quests of that day.  The handler counts per
    tracker, and only the mount-time check starts a new tracker (the
    defect of C2).  [state_quests_done_jan1] is the app mounted on 1
    January with the four quests logged that day.  Logging the four
    quests again on 2 January, without a new mount, emits no
    [QUEST_COMPLETE] reward: the tracker of 1 January is still full.
    From [state_three_quests_jan1], the fourth quest logged on 2 January
    emits the reward, and after a mount on 2 January the four quests of
    that day emit it again: twice on one calendar day. *)
Theorem C6_bonus_follows_tracker_not_day :
  dailyQuests state_quests_done_jan1
  = DailyQuestState.mk "2024-01-01" ["Workout"; "Reading"; "Work/Study"; "Meditation"] true
  /\ map ev_type quests_jan2 = DAILY_QUESTS
  /\ map (fun ev => todayStr (ev_env ev)) quests_jan2
     = ["2024-01-02"; "2024-01-02"; "2024-01-02"; "2024-01-02"]
  /\ countType QUEST_COMPLETE (snd (runLogs state_quests_done_jan1 quests_jan2)) = 0%nat
  /\ countType QUEST_COMPLETE
       (snd (runLogs state_three_quests_jan1 [mkLogEvent env_jan2 "Meditation" 15])) = 1%nat
  /\ countType QUEST_COMPLETE
       (snd (runLogs
               (initDateCheck "2024-01-02" "2024-01-01"
                  (fst (runLogs state_three_quests_jan1
                          [mkLogEvent env_jan2 "Meditation" 15])))
               quests_jan2)) = 1%nat.
Proof. vm_compute. repeat split; reflexivity. Qed.

(** ** Achievements *)

Lemma checkAchievements_NoDup (achs : list Achievement.t) (e : Env)
    (tempState : UserState) (newLog : Log.t) :
  forall (unlocked : list string) (rs : list RewardEvent.t),
    NoDup unlocked ->
    NoDup (fst (checkAchievements achs e tempState newLog unlocked rs)).
Proof.
  unfold checkAchievements.
  induction achs as [|ach achs IH]; intros unlocked rs Hnd; [exact Hnd|].
  cbn [fold_left]. unfold checkAchievement at 2.
  destruct (includes unlocked (Achievement.id ach)) eqn:Ei; cbn [negb andb].
  - apply IH, Hnd.
  - destruct (Achievement.condition ach e tempState (Some newLog)).
    + apply IH. apply NoDup_app; [exact Hnd|repeat constructor; cbn; tauto|].
      intros x Hx [<-|[]]. apply includes_In in Hx. congruence.
    + apply IH, Hnd.
Qed.

(** The loop does not consult the condition of an unlocked achievement. *)
Lemma checkAchievements_skips_unlocked (e : Env) (tempState : UserState) (newLog : Log.t)
    (unlocked0 : list string) (achs achs' : list Achievement.t) :
  Forall2 (sameUnlessUnlocked unlocked0 e tempState newLog) achs achs' ->
  forall (unlocked : list string) (rs : list RewardEvent.t),
    incl unlocked0 unlocked ->
    checkAchievements achs' e tempState newLog unlocked rs
    = checkAchievements achs e tempState newLog unlocked rs.
Proof.
  unfold checkAchievements.
  induction 1 as [|a a' achs achs' (Hid & Htitle & Hcond) _ IH]; intros unlocked rs Hincl;
    [reflexivity|].
  cbn [fold_left]. unfold checkAchievement at 2 4.
  rewrite <- Hid, <- Htitle.
  destruct (includes unlocked (Achievement.id a)) eqn:Ei; cbn [negb andb].
  - apply IH, Hincl.
  - rewrite <- Hcond.
    + destruct (Achievement.condition a e tempState (Some newLog)).
      * apply IH. apply incl_appl, Hincl.
      * apply IH, Hincl.
    + intros Hin. apply Hincl, includes_In in Hin. congruence.
Qed.

(** ** Invariants of the reachable states *)

Lemma questTrackerOk_fresh (d : string) : questTrackerOk (DailyQuestState.mk d [] false).
Proof.
  split; [constructor|]. split; [intros x []|]. cbn. split; discriminate.
Qed.

Lemma reachable_invariants (s : UserState) :
  reachable s ->
  NoDup (unlockedAchievements s)
  /\ currentXP s = totalXP s
  /\ questTrackerOk (dailyQuests s).
Proof.
  induction 1 as [|today yest s _ (Hnd & Hxp & Hok)|a s _ (Hnd & Hxp & Hok)
                  |s e type duration s' rs _ (Hnd & Hxp & Hok) Hstep].
  - split; [constructor|]. split; [reflexivity|]. apply questTrackerOk_fresh.
  - cbn. split; [exact Hnd|]. split; [exact Hxp|].
    destruct (negb _); [apply questTrackerOk_fresh | exact Hok].
  - cbn. auto.
  - destruct (applyActivityLog_structure _ _ _ _ _ _ Hstep)
      as (activityDef & newLog & b2 & b3 & x2 & x3 & x5 & new & _ & Hst).
    cbv zeta in Hst.
    destruct Hst as (_ & _ & _ & _ & _ & _ & _ & _ & _ & Htot & Hcur & _ & _ & _ & Hach).
    destruct Hach as (tempState & rs4 & Hunl).
    split; [rewrite Hunl; apply checkAchievements_NoDup, Hnd|].
    split; [lia|].
    pose proof (applyActivityLog_quests s e type duration Hok) as Hq.
    cbv zeta in Hq. rewrite Hstep in Hq. exact (proj1 Hq).
Qed.


(** As long as every handler call runs on the current state (the captured
    state is the state handed to the updater), [currentXP] equals
    [totalXP]: both are 0 initially and every such call adds the XP of its
    log to each. *)
Lemma currentXP_is_totalXP_on_current_state (s : UserState) :
  reachable s ->
  currentXP s = totalXP s
  /\ forall e type duration s' rs,
       applyActivityLog s e type duration = Some (s', rs) ->
       exists newLog,
         logs s' = newLog :: logs s
         /\ currentXP s' = currentXP s + Log.xpEarned newLog
         /\ totalXP s' = totalXP s + Log.xpEarned newLog
         /\ currentXP s' = totalXP s'.
Proof.
  intros Hreach.
  destruct (reachable_invariants s Hreach) as (_ & Hxp & _).
  split; [exact Hxp|].
  intros e type duration s' rs Hstep.
  destruct (applyActivityLog_structure _ _ _ _ _ _ Hstep)
    as (activityDef & newLog & b2 & b3 & x2 & x3 & x5 & new & _ & Hst).
  cbv zeta in Hst.
  destruct Hst as (_ & _ & _ & _ & _ & _ & Hlogs & _ & _ & Htot & Hcur & _).
  exists newLog. repeat split; try assumption. lia.
Qed.

Lemma reachable_state_jan1 : reachable state_jan1.
Proof.
  apply (reach_log (initDateCheck "2024-01-01" "2023-12-31" INITIAL_STATE) env_jan1
           "Workout" 30 state_jan1
           (rewardsOf (applyActivityLog (initDateCheck "2024-01-01" "2023-12-31" INITIAL_STATE)
                         env_jan1 "Workout" 30))).
  - apply reach_mount, reach_initial.
  - vm_compute. reflexivity.
Qed.


(** The two XP counters are advanced from different states: [currentXP]
    from the state handed to the updater, [totalXP] from the state the
    handler captured. *)
Lemma handleLogActivity_xp_bases (gameState prev : UserState) (e : Env)
    (type : ActivityType) (duration : Z) (s' : UserState) (rs : list RewardEvent.t) :
  handleLogActivity gameState prev e type duration = Some (s', rs) ->
  exists newLog,
    logs s' = newLog :: logs prev
    /\ currentXP s' = currentXP prev + Log.xpEarned newLog
    /\ totalXP s' = totalXP gameState + Log.xpEarned newLog.
Proof.
  intros H. apply handleLogActivity_inv in H.
  destruct H as (activityDef & _ & H). cbv zeta in H.
  destruct H as (tempState & _ & Hcur & Htot & Hlogs & _).
  eexists. split; [exact Hlogs|]. split; [exact Hcur | exact Htot].
Qed.

(** C10 (the code departs from the claim).  The claim asks that
    [currentXP] always equals [totalXP].  The updater of the handler adds
    the earned XP to [prev.currentXP] but to the captured
    [gameState.totalXP].  [state_mounted_jan2] is the app mounted on 2
    January; a workout logged from that render gives [state_first_tap]
    with 40 XP in both counters.  A second tap served by the handler of
    the same render (captured state [state_mounted_jan2], updater state
    [state_first_tap]) logs 25 XP of reading: [currentXP] becomes
    40 + 25 = 65 and [totalXP] becomes 0 + 25 = 25. *)
Theorem C10_stale_handler_splits_xp :
  currentXP state_first_tap = 40
  /\ totalXP state_first_tap = 40
  /\ exists s2 rs,
       handleLogActivity state_mounted_jan2 state_first_tap env_jan2 "Reading" 30
       = Some (s2, rs)
       /\ currentXP s2 = 65
       /\ totalXP s2 = 25
       /\ (currentXP s2 =? totalXP s2) = false.
Proof.
  split; [reflexivity|]. split; [reflexivity|].
  eexists. eexists. split; [vm_compute; reflexivity|].
  repeat split; reflexivity.
Qed.

(** ** The tracker across a day change *)

(** The handler never changes the date of the tracker and never removes a
    completed quest from it; only the mount-time check starts a new day. *)
Lemma applyActivityLog_keeps_tracker_date (s : UserState) (e : Env) (type : ActivityType)
    (duration : Z) (s' : UserState) (rs : list RewardEvent.t) :
  applyActivityLog s e type duration = Some (s', rs) ->
  DailyQuestState.dateStr (dailyQuests s') = DailyQuestState.dateStr (dailyQuests s)
  /\ incl (DailyQuestState.completed (dailyQuests s))
          (DailyQuestState.completed (dailyQuests s')).
Proof.
  intros H.
  destruct (applyActivityLog_structure _ _ _ _ _ _ H)
    as (activityDef & newLog & b2 & b3 & x2 & x3 & x5 & new & _ & Hst).
  cbv zeta in Hst.
  destruct Hst as (_ & _ & _ & _ & _ & _ & _ & _ & _ & _ & _ & _ & _ & Hq & _).
  destruct Hq as (xp2 & rs2 & -> & _).
  unfold dailyQuestLogic. cbv zeta.
  destruct (_ && negb (includes _ _)); [|split; [reflexivity|apply incl_refl]].
  destruct (_ && negb (DailyQuestState.bonusClaimed _)); cbn;
    (split; [reflexivity|apply incl_appl, incl_refl]).
Qed.

Lemma initDateCheck_new_day (today yest : string) (prev : UserState) :
  DailyQuestState.dateStr (dailyQuests prev) <> today ->
  dailyQuests (initDateCheck today yest prev) = DailyQuestState.mk today [] false.
Proof.
  intros Hne. cbn.
  destruct (String.eqb_spec (DailyQuestState.dateStr (dailyQuests prev)) today);
    [contradiction|reflexivity].
Qed.

(** C2 (the code departs from the claim).  The claim asks that a log event
    whose date differs from the tracker's date first replaces the tracker
    by an empty, unclaimed one for the event's date.  [state_jan1] is the
    app mounted on 1 January with a workout logged that day; its tracker
    is dated 2024-01-01 and lists the workout.  Logging a reading session
    on 2 January without a new mount keeps the date 2024-01-01 and adds
    the reading to the workout of the day before, where the claim asks for
    the tracker [("2024-01-02", ["Reading"], unclaimed)].  The mount-time
    check, run on the same state, does replace the tracker. *)
Theorem C2_log_keeps_stale_tracker :
  DailyQuestState.dateStr (dailyQuests state_jan1) = "2024-01-01"
  /\ todayStr env_jan2 = "2024-01-02"
  /\ dailyQuests (stateAfter state_jan1 (applyActivityLog state_jan1 env_jan2 "Reading" 30))
     = DailyQuestState.mk "2024-01-01" ["Workout"; "Reading"] false
  /\ dailyQuests (initDateCheck "2024-01-02" "2024-01-01" state_jan1)
     = DailyQuestState.mk "2024-01-02" [] false.
Proof. vm_compute. repeat split; reflexivity. Qed.

(** ** Custom activities *)

Lemma find_app_Some {A} (f : A -> bool) (l l' : list A) (x : A) :
  find f l = Some x -> find f (l ++ l') = Some x.
Proof.
  induction l as [|y l IH]; cbn; [discriminate|].
  destruct (f y); [trivial|exact IH].
Qed.

(** The claim of C3 read on one input: a custom activity named like the
    built-in "Workout" is added to the initial profile.  The claim asks
    that [customActivities] stays unchanged; the updater appends the
    definition. *)
Lemma C3_duplicate_name_is_appended :
  includes (map ActivityDef.type (allActivities INITIAL_STATE))
    (CustomActivity.name workoutAgain) = true
  /\ customActivities (handleAddCustomActivity workoutAgain INITIAL_STATE) = [workoutAgain]
  /\ customActivities (handleAddCustomActivity workoutAgain INITIAL_STATE)
     <> customActivities INITIAL_STATE.
Proof.
  split; [reflexivity|]. split; [reflexivity|]. cbn. discriminate.
Qed.

(** C3 as amended.  [handleAddCustomActivity] appends the definition to
    [customActivities] for every profile and every definition, also when
    its name is the identifier of a built-in or of an earlier custom
    activity; nothing else in the profile changes and there is no failure
    case.  Lookups take the first match, so every identifier that resolved
    before the addition resolves to the same definition after it: a
    definition with a duplicate name is shadowed by the earlier one. *)
Theorem C3_custom_activity_appended (s : UserState) (a : CustomActivity.t) :
  let s' := handleAddCustomActivity a s in
  customActivities s' = customActivities s ++ [a]
  /\ (level s', currentXP s', totalXP s', stats s', logs s') =
     (level s, currentXP s, totalXP s, stats s, logs s)
  /\ (streak s', lastLoginDate s', unlockedAchievements s', dailyQuests s', inventory s') =
     (streak s, lastLoginDate s, unlockedAchievements s, dailyQuests s, inventory s)
  /\ forall type def,
       find (fun x => String.eqb (ActivityDef.type x) type) (allActivities s) = Some def ->
       find (fun x => String.eqb (ActivityDef.type x) type) (allActivities s') = Some def.
Proof.
  cbv zeta. split; [reflexivity|]. split; [reflexivity|]. split; [reflexivity|].
  intros type def Hfind.
  unfold allActivities in *. cbn [handleAddCustomActivity customActivities].
  rewrite map_app, app_assoc. apply find_app_Some, Hfind.
Qed.

Lemma C3_custom_activity_appended_witness :
  find (fun x => String.eqb (ActivityDef.type x) "Workout") (allActivities INITIAL_STATE)
    = Some (ActivityDef.mk "Workout" "Dumbbell" Strength "text-red-500" 40 30)
  /\ find (fun x => String.eqb (ActivityDef.type x) "Workout")
       (allActivities (handleAddCustomActivity workoutAgain INITIAL_STATE))
     = Some (ActivityDef.mk "Workout" "Dumbbell" Strength "text-red-500" 40 30).
Proof.
  split; [reflexivity|].
  exact (proj2 (proj2 (proj2 (C3_custom_activity_appended INITIAL_STATE workoutAgain)))
           "Workout" _ eq_refl).
Defined.

(** ** Durations *)

(** The claim of C7 read on one input: the handler called with duration 0
    on the initial profile.  The claim asks for a rejection without any
    change; the handler appends a log and changes the profile. *)
Lemma C7_zero_duration_is_logged :
  0 <= 0
  /\ (exists s' rs,
        applyActivityLog INITIAL_STATE env_jan2 "Workout" 0 = Some (s', rs)
        /\ List.length (logs s') = 1%nat
        /\ discipline (stats s') = 5)
  /\ stateAfter INITIAL_STATE (applyActivityLog INITIAL_STATE env_jan2 "Workout" 0)
     <> INITIAL_STATE.
Proof.
  split; [apply Z.le_refl|]. split.
  - eexists. eexists. split; [vm_compute; reflexivity|]. split; reflexivity.
  - intros H. apply (f_equal (fun s => List.length (logs s))) in H.
    vm_compute in H. discriminate H.
Qed.

(** C7 as amended.  The handler has no duration check; durations that are
    not positive are stopped before it, in the log modal.  For every
    profile, when the value parsed from the custom-duration field is not a
    positive number ([NaN] included), the LOG button does not call the
    handler: the profile is unchanged and no reward is queued; there is no
    error value.  The quick-log buttons offer positive durations only. *)
Theorem C7_modal_stops_nonpositive_duration (s : UserState) (e : Env)
    (selectedType : option ActivityType) (val : option Z) :
  (forall v, val = Some v -> v <= 0) ->
  customDurationLog selectedType val s e = None
  /\ stateAfter s (customDurationLog selectedType val s e) = s
  /\ rewardsOf (customDurationLog selectedType val s e) = []
  /\ Forall (fun d => 0 < d) QUICK_DURATIONS.
Proof.
  intros Hval.
  assert (Hnone : customDurationLog selectedType val s e = None).
  { unfold customDurationLog. destruct val as [v|]; [|reflexivity].
    specialize (Hval v eq_refl). destruct (Z.ltb_spec 0 v); [lia|reflexivity]. }
  rewrite Hnone. repeat split.
  unfold QUICK_DURATIONS. repeat constructor.
Qed.

Lemma C7_modal_stops_nonpositive_duration_witness :
  (forall v, Some 0 = Some v -> v <= 0)
  /\ stateAfter INITIAL_STATE (customDurationLog (Some "Workout") (Some 0) INITIAL_STATE env_jan2)
     = INITIAL_STATE.
Proof.
  assert (H : forall v, Some 0 = Some v -> v <= 0).
  { intros v Hv. injection Hv as <-. apply Z.le_refl. }
  split; [exact H|].
  exact (proj1 (proj2 (C7_modal_stops_nonpositive_duration INITIAL_STATE env_jan2
                         (Some "Workout") (Some 0) H))).
Defined.

(** * Further properties of the code *)

(** ** Leveling math, continued *)

Lemma threshold_le_square (L t : Z) :
  0 <= L -> 0 <= t -> t * t <= 10000 * (L * L * L) -> t <= 100 * (L * L).
Proof.
  intros HL Ht Hlo.
  destruct (Z.eq_dec L 0) as [->|Hne].
  - assert (t * t <= 0) by lia. nia.
  - assert (H3 : L * L * L <= (L * L) * (L * L)).
    { assert (HL2 : L <= L * L) by nia. apply Z.mul_le_mono_nonneg_l; nia. }
    apply Z.square_le_simpl_nonneg; [nia|].
    replace (100 * (L * L) * (100 * (L * L))) with (10000 * ((L * L) * (L * L))) by ring.
    lia.
Qed.

Lemma getXPForLevel_lt_succ (L : Z) :
  0 <= L -> getXPForLevel L < getXPForLevel (L + 1).
Proof.
  intros HL.
  destruct (getXPForLevel_spec L HL) as (Ht0 & Hlo & Hhi).
  destruct (getXPForLevel_spec (L + 1) ltac:(lia)) as (Hu0 & Hulo & Huhi).
  pose proof (threshold_le_square L _ HL Ht0 Hlo) as Hsq.
  set (t := getXPForLevel L) in *. set (u := getXPForLevel (L + 1)) in *.
  replace ((L + 1) * (L + 1) * (L + 1)) with (L * L * L + (3 * (L * L) + 3 * L + 1)) in *
    by ring.
  destruct (Z.lt_ge_cases t u) as [H|H]; [exact H|].
  exfalso.
  assert (Hut : (u + 1) * (u + 1) <= (t + 1) * (t + 1)) by (apply Z.mul_le_mono_nonneg; lia).
  replace ((t + 1) * (t + 1)) with (t * t + 2 * t + 1) in Hut by ring.
  lia.
Qed.

(** A higher level always has a higher threshold: [getXPForLevel] is
    strictly increasing on the levels from 0 up. *)
Theorem getXPForLevel_increasing (L L' : Z) :
  0 <= L -> L < L' -> getXPForLevel L < getXPForLevel L'.
Proof.
  intros HL Hlt.
  assert (Hn : forall n : nat, getXPForLevel L < getXPForLevel (L + 1 + Z.of_nat n)).
  { induction n as [|n IH].
    - rewrite Z.add_0_r. apply getXPForLevel_lt_succ, HL.
    - eapply Z.lt_trans; [exact IH|].
      replace (L + 1 + Z.of_nat (S n)) with (L + 1 + Z.of_nat n + 1) by lia.
      apply getXPForLevel_lt_succ. lia. }
  specialize (Hn (Z.to_nat (L' - L - 1))).
  replace (L + 1 + Z.of_nat (Z.to_nat (L' - L - 1))) with L' in Hn by lia.
  exact Hn.
Qed.

Lemma getXPForLevel_increasing_witness :
  0 <= 2 /\ 2 < 5 /\ getXPForLevel 2 < getXPForLevel 5.
Proof.
  assert (H : 0 <= 2) by lia. assert (H' : 2 < 5) by lia.
  split; [exact H|]. split; [exact H' | exact (getXPForLevel_increasing 2 5 H H')].
Defined.



(** ** The dashboard's progress numbers *)

(** For a profile whose [level] brackets its [totalXP], that is
    [100 * (level - 1)^1.5 <= totalXP <= 100 * level^1.5] (written over
    the integers, squared), the progress shown lies between 0 and the
    amount required, and the amount required is positive: "XP Remaining"
    is never negative.  (It can be 0: see C1.)  The upper bound is not
    strict, so the profile at 800 XP with the stored level 4 is
    included. *)
Theorem dashboard_progress_in_range (s : UserState) :
  0 <= totalXP s ->
  1 <= level s ->
  10000 * ((level s - 1) * (level s - 1) * (level s - 1)) <= totalXP s * totalXP s ->
  totalXP s * totalXP s <= 10000 * (level s * level s * level s) ->
  0 <= xpProgress s <= xpRequiredForNext s /\ 0 < xpRequiredForNext s.
Proof.
  intros Hxp Hlevel Hlo Hhi.
  unfold xpProgress, xpRequiredForNext, nextLevelXP, currentLevelBaseXP.
  set (n := level s - 1) in *.
  assert (Hn : 0 <= n) by (unfold n; lia).
  replace (level s) with (n + 1) in * by (unfold n; ring).
  pose proof (getXPForLevel_lt_succ n Hn) as Hinc.
  destruct (getXPForLevel_spec n Hn) as (Hb0 & Hblo & Hbhi).
  destruct (getXPForLevel_spec (n + 1) ltac:(lia)) as (Hu0 & Hulo & Huhi).
  set (b := getXPForLevel n) in *. set (u := getXPForLevel (n + 1)) in *.
  set (x := totalXP s) in *.
  assert (Hbx : b <= x).
  { destruct (Z.le_gt_cases b x) as [H|H]; [exact H|]. exfalso.
    assert ((x + 1) * (x + 1) <= b * b) by (apply Z.mul_le_mono_nonneg; lia).
    replace ((x + 1) * (x + 1)) with (x * x + 2 * x + 1) in * by ring. lia. }
  assert (Hxu : x <= u).
  { destruct (Z.le_gt_cases x u) as [H|H]; [exact H|]. exfalso.
    assert ((u + 1) * (u + 1) <= x * x) by (apply Z.mul_le_mono_nonneg; lia).
    lia. }
  lia.
Qed.

Lemma dashboard_progress_in_range_witness :
  (0 <= xpProgress state_99xp <= xpRequiredForNext state_99xp
   /\ 0 < xpRequiredForNext state_99xp)
  /\ (0 <= xpProgress state_800xp <= xpRequiredForNext state_800xp
      /\ 0 < xpRequiredForNext state_800xp).
Proof.
  split.
  - apply (dashboard_progress_in_range state_99xp); cbn; lia.
  - apply (dashboard_progress_in_range state_800xp); cbn; lia.
Defined.

(** ** StatsView *)



(** ** calculateXP *)

(** Over a positive base duration, the exact value that [calculateXP]
    stands for is the quotient of [2 * baseXP * duration + baseDuration]
    by [2 * baseDuration]. *)
Lemma calculateXP_div (baseXP baseDuration duration : Z) :
  0 < baseDuration ->
  calculateXP baseXP baseDuration duration
  = (2 * baseXP * duration + baseDuration) / (2 * baseDuration).
Proof.
  intros Hbd. destruct baseDuration as [|p|p]; try lia.
  unfold calculateXP. cbv [Qfloor Qplus Qmult Qdiv Qinv inject_Z Qnum Qden].
  f_equal; lia.
Qed.

(** Logging exactly the base duration earns exactly the base XP, and
    whole multiples of it earn whole multiples. *)
Theorem calculateXP_base_duration (baseXP baseDuration k : Z) :
  0 < baseDuration ->
  calculateXP baseXP baseDuration baseDuration = baseXP
  /\ calculateXP baseXP baseDuration (k * baseDuration) = k * baseXP.
Proof.
  intros Hbd.
  assert (Hk : forall j, calculateXP baseXP baseDuration (j * baseDuration) = j * baseXP).
  { intros j. rewrite calculateXP_div by exact Hbd.
    replace (2 * baseXP * (j * baseDuration) + baseDuration)
      with (baseDuration + (j * baseXP) * (2 * baseDuration)) by ring.
    rewrite Z.div_add by lia. rewrite Z.div_small by lia. ring. }
  split; [|apply Hk].
  specialize (Hk 1). rewrite !Z.mul_1_l in Hk. exact Hk.
Qed.

Lemma calculateXP_base_duration_witness :
  0 < 60 /\ calculateXP 50 60 60 = 50 /\ calculateXP 50 60 (2 * 60) = 2 * 50.
Proof.
  assert (H : 0 < 60) by lia.
  split; [exact H | exact (calculateXP_base_duration 50 60 2 H)].
Defined.

(** ** Titles *)

Example sorted_title_levels :
  sortBy (fun a b => b - a) (map fst TITLES) = [20; 15; 10; 7; 5; 3; 1].
Proof. reflexivity. Qed.

(** [getTitle] returns the title of the greatest key of [TITLES] that is
    not above the level, and "Novice" for a level below every key. *)
Theorem getTitle_greatest_key (level : Z) :
  (level < 1 -> getTitle level = Some "Novice")
  /\ forall k t,
       In (k, t) TITLES -> k <= level ->
       (forall k' t', In (k', t') TITLES -> k' <= level -> k' <= k) ->
       getTitle level = Some t.
Proof.
  unfold getTitle. cbv zeta. rewrite sorted_title_levels. cbn [find].
  split.
  - intros Hlt.
    repeat match goal with
           | |- context [?a <=? level] => destruct (Z.leb_spec a level); [lia|]
           end.
    reflexivity.
  - intros k t Hin Hle Hmax.
    assert (H20 : 20 <= level -> 20 <= k) by (intros; apply (Hmax 20 "Ascended"); cbn; tauto).
    assert (H15 : 15 <= level -> 15 <= k) by (intros; apply (Hmax 15 "Elite"); cbn; tauto).
    assert (H10 : 10 <= level -> 10 <= k)
      by (intros; apply (Hmax 10 "Unstoppable"); cbn; tauto).
    assert (H7 : 7 <= level -> 7 <= k) by (intros; apply (Hmax 7 "Disciplined"); cbn; tauto).
    assert (H5 : 5 <= level -> 5 <= k) by (intros; apply (Hmax 5 "Focused"); cbn; tauto).
    assert (H3 : 3 <= level -> 3 <= k) by (intros; apply (Hmax 3 "Beginner"); cbn; tauto).
    clear Hmax.
    cbn in Hin.
    repeat match goal with
           | H : _ \/ _ |- _ => destruct H as [H|H]
           | H : (_, _) = (_, _) |- _ => injection H as <- <-
           | H : False |- _ => destruct H
           end;
      repeat match goal with
             | |- context [?a <=? level] => destruct (Z.leb_spec a level)
             end;
      try lia; reflexivity.
Qed.

Lemma getTitle_greatest_key_witness :
  In (5, "Focused") TITLES /\ 5 <= 6 /\ getTitle 6 = Some "Focused".
Proof.
  assert (Hin : In (5, "Focused") TITLES) by (cbn; tauto).
  assert (Hle : 5 <= 6) by lia.
  split; [exact Hin|]. split; [exact Hle|].
  apply (proj2 (getTitle_greatest_key 6) 5 "Focused" Hin Hle).
  intros k' t' Hin' Hle'. cbn in Hin'.
  repeat match goal with
         | H : _ \/ _ |- _ => destruct H as [H|H]
         | H : (_, _) = (_, _) |- _ => injection H as <- <-
         | H : False |- _ => destruct H
         end; lia.
Defined.

(** A higher level never has a title of a lower key: the key whose title
    is shown grows with the level. *)
Theorem getTitle_monotone (level level' : Z) (k k' : Z) (t t' : string) :
  level <= level' ->
  In (k, t) TITLES -> In (k', t') TITLES ->
  getTitle level = Some t -> getTitle level' = Some t' ->
  k <= k'.
Proof.
  unfold getTitle. cbv zeta. rewrite sorted_title_levels. cbn [find].
  intros Hle Hin Hin'. cbn in Hin, Hin'.
  repeat match goal with
         | H : _ \/ _ |- _ => destruct H as [H|H]
         | H : (_, _) = (_, _) |- _ => injection H as <- <-
         | H : False |- _ => destruct H
         end;
    repeat match goal with
           | |- context [?a <=? level] => destruct (Z.leb_spec a level)
           end;
    repeat match goal with
           | |- context [?a <=? level'] => destruct (Z.leb_spec a level')
           end;
    cbn; intros E E'; try discriminate E; try discriminate E'; lia.
Qed.

Lemma getTitle_monotone_witness :
  4 <= 12 /\ getTitle 4 = Some "Beginner" /\ getTitle 12 = Some "Unstoppable" /\ 3 <= 10.
Proof.
  assert (Hle : 4 <= 12) by lia.
  split; [exact Hle|]. split; [reflexivity|]. split; [reflexivity|].
  apply (getTitle_monotone 4 12 3 10 "Beginner" "Unstoppable" Hle);
    [cbn; tauto | cbn; tauto | reflexivity | reflexivity].
Defined.

(** ** The reward overlay *)

Lemma rewardsShown_idle (q : list RewardEvent.t) :
  forall n, (List.length q <= n)%nat ->
    rewardsShown n (mkRewardView None q) = q.
Proof.
  induction q as [|r q IH]; intros n Hn.
  - destruct n; reflexivity.
  - destruct n as [|n]; [cbn in Hn; lia|].
    cbn. f_equal. apply IH. cbn in Hn. lia.
Qed.

(** Rewards are shown one at a time, in the order they were queued, none
    lost and none twice: with [r] on screen, a pending queue [q] and the
    rewards [rs] of a new log appended, the user is shown [r], then [q],
    then [rs]; a reward on screen is not replaced by the effect. *)
Theorem rewards_shown_in_order (r : RewardEvent.t) (q rs : list RewardEvent.t) (n : nat) :
  (List.length q + List.length rs < n)%nat ->
  rewardEffect (mkRewardView (Some r) q) = mkRewardView (Some r) q
  /\ rewardsShown n (queueRewards rs (mkRewardView (Some r) q)) = r :: q ++ rs
  /\ rewardsShown n (queueRewards rs (mkRewardView None q)) = q ++ rs.
Proof.
  intros Hn. split; [reflexivity|].
  assert (Hq : forall c, queueRewards rs (mkRewardView c q) = mkRewardView c (q ++ rs)).
  { intros c. destruct rs; [rewrite app_nil_r|]; reflexivity. }
  rewrite !Hq. split.
  - destruct n as [|n]; [lia|]. cbn. f_equal.
    apply rewardsShown_idle. rewrite length_app. lia.
  - apply rewardsShown_idle. rewrite length_app. lia.
Qed.

Lemma rewards_shown_in_order_witness :
  (List.length (@nil RewardEvent.t)
   + List.length (rewardsOf (applyActivityLog state_99xp env_jan2 "Workout" 1)) < 3)%nat
  /\ rewardsShown 3
       (queueRewards (rewardsOf (applyActivityLog state_99xp env_jan2 "Workout" 1))
          (mkRewardView None []))
     = rewardsOf (applyActivityLog state_99xp env_jan2 "Workout" 1).
Proof.
  assert (H : (List.length (@nil RewardEvent.t)
               + List.length (rewardsOf (applyActivityLog state_99xp env_jan2 "Workout" 1))
               < 3)%nat) by (vm_compute; lia).
  split; [exact H|].
  exact (proj2 (proj2 (rewards_shown_in_order
                         (RewardEvent.mk BONUS "" None None) []
                         (rewardsOf (applyActivityLog state_99xp env_jan2 "Workout" 1))
                         3 H))).
Defined.

(** ** One handler run, every field *)

(** The new profile of a successful run, field by field, with the
    temporary state the achievement loop sees. *)
Lemma applyActivityLog_fields (s : UserState) (e : Env) (type : ActivityType)
    (duration : Z) (s' : UserState) (rs : list RewardEvent.t) :
  applyActivityLog s e type duration = Some (s', rs) ->
  exists activityDef,
    find (fun a => String.eqb (ActivityDef.type a) type) (allActivities s) = Some activityDef
    /\ let baseXP :=
         calculateXP (ActivityDef.baseXP activityDef) (ActivityDef.baseDuration activityDef)
           duration in
       let r1 := randomRewards e baseXP in
       let r2 := streakLogic e s (snd (fst r1)) (snd r1) in
       let r3 := dailyQuestLogic s type (snd (fst r2)) (snd r2) in
       let newLog :=
         Log.mk (idStr e) type duration (snd (fst r3)) (nowMs e) (todayStr e) (fst (fst r1)) in
       let newLevel := getLevelFromXP (totalXP s + snd (fst r3)) in
       let rs4 :=
         if level s <? newLevel then
           snd r3 ++ [RewardEvent.mk LEVEL_UP
                        ("Level " ++ string_of_Z newLevel ++ " Reached!")%string None None]
         else snd r3 in
       let tempState :=
         mkUserState (level s) (currentXP s) (totalXP s + snd (fst r3)) (stats s)
           (newLog :: logs s) (fst (fst r2)) (lastLoginDate s) (unlockedAchievements s)
           (dailyQuests s) (inventory s) (customActivities s) in
       let r5 :=
         checkAchievements ACHIEVEMENTS_LIST e tempState newLog (unlockedAchievements s) rs4 in
       rs = snd r5
       /\ s' = mkUserState newLevel (currentXP s + snd (fst r3)) (totalXP s + snd (fst r3))
                 (addStat (addStat (stats s) (ActivityDef.stat activityDef) baseXP)
                    Discipline 5)
                 (newLog :: logs s) (fst (fst r2)) (todayStr e) (fst r5) (fst (fst r3))
                 (match truthyItem
                          (find (fun r => RewardType_eqb (RewardEvent.type r) ITEM) rs) with
                  | Some i => inventory s ++ [i]
                  | None => inventory s
                  end)
                 (customActivities s).
Proof.
  unfold applyActivityLog, handleLogActivity.
  destruct (find _ (allActivities s)) as [activityDef|] eqn:Hfind; [|discriminate].
  destruct (randomRewards _ _) as [[isCritical xp1] rs1] eqn:Hroll.
  destruct (streakLogic _ _ _ _) as [[newStreak xp2] rs2] eqn:Hstreak.
  destruct (dailyQuestLogic _ _ _ _) as [[dq xp3] rs3] eqn:Hquest.
  destruct (checkAchievements _ _ _ _ _ _) as [newUnlocked rs5] eqn:Hach.
  intros H. injection H as <- <-.
  exists activityDef. split; [reflexivity|].
  cbv zeta. rewrite Hroll. cbn [fst snd]. rewrite Hstreak. cbn [fst snd].
  rewrite Hquest. cbn [fst snd]. rewrite Hach. cbn [fst snd].
  split; reflexivity.
Qed.

(** ** Resolving activities *)

Lemma applyActivityLog_None_iff (s : UserState) (e : Env) (type : ActivityType)
    (duration : Z) :
  applyActivityLog s e type duration = None
  <-> ~ In type (map ActivityDef.type (allActivities s)).
Proof.
  unfold applyActivityLog, handleLogActivity.
  destruct (find _ (allActivities s)) as [activityDef|] eqn:Hfind.
  - split.
    + destruct (randomRewards _ _) as [[? ?] ?]. destruct (streakLogic _ _ _ _) as [[? ?] ?].
      destruct (dailyQuestLogic _ _ _ _) as [[? ?] ?].
      destruct (checkAchievements _ _ _ _ _ _). discriminate.
    + intros Hnot. exfalso. apply Hnot.
      apply find_some in Hfind as [Hin Heq]. apply String.eqb_eq in Heq. subst type.
      apply in_map, Hin.
  - split; [|reflexivity]. intros _ Hin.
    apply in_map_iff in Hin as (a & Ha & Hin).
    pose proof (find_none _ _ Hfind a Hin) as Hf. cbn in Hf.
    rewrite Ha, String.eqb_refl in Hf. discriminate.
Qed.

(** The handler returns without any change exactly for an activity name
    that is neither a built-in nor a custom activity of the profile;
    whether it does depends on the name alone, not on the duration, the
    clock or the random draws. *)
Theorem unknown_activity_iff (s : UserState) (e : Env) (type : ActivityType)
    (duration : Z) :
  (applyActivityLog s e type duration = None
   <-> ~ In type (map ActivityDef.type (allActivities s)))
  /\ forall e' duration',
       applyActivityLog s e' type duration' = None
       <-> applyActivityLog s e type duration = None.
Proof.
  split.
  - apply applyActivityLog_None_iff.
  - intros e' duration'. rewrite !applyActivityLog_None_iff. tauto.
Qed.

(** A built-in activity resolves to its built-in definition in every
    profile: no custom activity can replace it, and logging it never
    fails. *)
Theorem builtin_always_resolves (s : UserState) (def : ActivityDef.t) :
  In def DEFAULT_ACTIVITIES ->
  find (fun a => String.eqb (ActivityDef.type a) (ActivityDef.type def)) (allActivities s)
    = Some def
  /\ forall e duration, applyActivityLog s e (ActivityDef.type def) duration <> None.
Proof.
  intros Hin.
  assert (Hfind : find (fun a => String.eqb (ActivityDef.type a) (ActivityDef.type def))
                    (allActivities s) = Some def).
  { unfold allActivities. cbv zeta. apply find_app_Some.
    cbn in Hin.
    repeat match goal with
           | H : _ \/ _ |- _ => destruct H as [H|H]
           | H : False |- _ => destruct H
           end; subst def; reflexivity. }
  split; [exact Hfind|].
  intros e duration Hnone. apply applyActivityLog_None_iff in Hnone. apply Hnone.
  apply find_some in Hfind as [Hin' _]. apply in_map, Hin'.
Qed.

Lemma builtin_always_resolves_witness :
  In (ActivityDef.mk "Workout" "Dumbbell" Strength "text-red-500" 40 30) DEFAULT_ACTIVITIES
  /\ find (fun a => String.eqb (ActivityDef.type a) "Workout")
       (allActivities (handleAddCustomActivity workoutAgain INITIAL_STATE))
     = Some (ActivityDef.mk "Workout" "Dumbbell" Strength "text-red-500" 40 30).
Proof.
  assert (Hin : In (ActivityDef.mk "Workout" "Dumbbell" Strength "text-red-500" 40 30)
                  DEFAULT_ACTIVITIES) by (left; reflexivity).
  split; [exact Hin|].
  exact (proj1 (builtin_always_resolves (handleAddCustomActivity workoutAgain INITIAL_STATE)
                  _ Hin)).
Defined.

Lemma find_app_None {A} (f : A -> bool) (l l' : list A) :
  find f l = None -> find f (l ++ l') = find f l'.
Proof.
  induction l as [|y l IH]; cbn; [reflexivity|].
  destruct (f y); [discriminate|exact IH].
Qed.

(** Adding a custom activity under a name not in use makes that name
    resolve to the new definition, so it can be logged at once. *)
Theorem added_activity_resolves (s : UserState) (a : CustomActivity.t) :
  ~ In (CustomActivity.name a) (map ActivityDef.type (allActivities s)) ->
  find (fun x => String.eqb (ActivityDef.type x) (CustomActivity.name a))
    (allActivities (handleAddCustomActivity a s)) = Some (customDef a)
  /\ forall e duration,
       applyActivityLog (handleAddCustomActivity a s) e (CustomActivity.name a) duration
       <> None.
Proof.
  intros Hfresh.
  assert (Hfind : find (fun x => String.eqb (ActivityDef.type x) (CustomActivity.name a))
                    (allActivities (handleAddCustomActivity a s)) = Some (customDef a)).
  { assert (Hnone : find (fun x => String.eqb (ActivityDef.type x) (CustomActivity.name a))
                      (allActivities s) = None).
    { destruct (find _ (allActivities s)) as [d|] eqn:E; [|reflexivity].
      exfalso. apply Hfresh. apply find_some in E as [Hin Heq].
      apply String.eqb_eq in Heq. rewrite <- Heq. apply in_map, Hin. }
    unfold allActivities in *. cbn [handleAddCustomActivity customActivities].
    rewrite map_app, app_assoc, find_app_None by exact Hnone.
    cbn. rewrite String.eqb_refl. reflexivity. }
  split; [exact Hfind|].
  intros e duration Hnone. apply applyActivityLog_None_iff in Hnone. apply Hnone.
  apply find_some in Hfind as [Hin _].
  change (CustomActivity.name a) with (ActivityDef.type (customDef a)). apply in_map, Hin.
Qed.

Lemma added_activity_resolves_witness :
  ~ In "Painting" (map ActivityDef.type (allActivities INITIAL_STATE))
  /\ find (fun x => String.eqb (ActivityDef.type x) "Painting")
       (allActivities
          (handleAddCustomActivity
             (CustomActivity.mk "1" "Painting" Mind "Palette" "text-pink-500" 30 30)
             INITIAL_STATE))
     = Some (ActivityDef.mk "Painting" "Palette" Mind "text-pink-500" 30 30).
Proof.
  assert (H : ~ In "Painting" (map ActivityDef.type (allActivities INITIAL_STATE))).
  { cbn. intros Hin.
    repeat match goal with
           | H : _ \/ _ |- _ => destruct H as [H|H]
           | H : False |- _ => destruct H
           end; discriminate. }
  split; [exact H|].
  exact (proj1 (added_activity_resolves INITIAL_STATE
                  (CustomActivity.mk "1" "Painting" Mind "Palette" "text-pink-500" 30 30) H)).
Defined.

(** ** Stats *)



(** ** Logs *)

(** Logs are only ever added at the front: after any sequence of handler
    calls the earlier logs are all still there, unchanged and in order,
    behind one new entry for every call whose activity is known. *)
Theorem logs_only_grow (s : UserState) (evs : list LogEvent) :
  let s' := fst (runLogs s evs) in
  customActivities s' = customActivities s
  /\ exists new,
       logs s' = new ++ logs s
       /\ List.length new
          = List.length
              (filter (fun ev => includes (map ActivityDef.type (allActivities s)) (ev_type ev))
                 evs).
Proof.
  revert s. induction evs as [|ev evs IH]; intros s; cbv zeta.
  - cbn. split; [reflexivity|]. exists []. split; reflexivity.
  - cbn [runLogs filter].
    destruct (applyActivityLog s (ev_env ev) (ev_type ev) (ev_duration ev))
      as [[s1 rs1]|] eqn:H; cbn [stateAfter rewardsOf].
    + assert (Hin : includes (map ActivityDef.type (allActivities s)) (ev_type ev) = true).
      { apply includes_In. destruct (in_dec string_dec (ev_type ev)
                                      (map ActivityDef.type (allActivities s))) as [Hi|Hn];
          [exact Hi|]. apply applyActivityLog_None_iff with (e := ev_env ev)
                         (duration := ev_duration ev) in Hn. congruence. }
      rewrite Hin.
      destruct (applyActivityLog_fields _ _ _ _ _ _ H) as (activityDef & _ & Hf).
      cbv zeta in Hf. destruct Hf as (_ & Hs1).
      assert (Hlogs : exists l, logs s1 = l :: logs s) by (rewrite Hs1; eexists; reflexivity).
      assert (Hcust : customActivities s1 = customActivities s) by (rewrite Hs1; reflexivity).
      destruct Hlogs as (l & Hlogs).
      specialize (IH s1). cbv zeta in IH.
      destruct (runLogs s1 evs) as [s' rs']. cbn [fst] in *.
      destruct IH as (Hc & new & Hnew & Hlen).
      split; [congruence|].
      exists (new ++ [l]). rewrite <- app_assoc. cbn [app]. rewrite Hnew, Hlogs.
      split; [reflexivity|].
      rewrite length_app. cbn [List.length]. rewrite Hlen.
      unfold allActivities. rewrite Hcust. lia.
    + assert (Hin : includes (map ActivityDef.type (allActivities s)) (ev_type ev) = false).
      { destruct (includes _ _) eqn:E; [|reflexivity].
        apply includes_In in E. apply applyActivityLog_None_iff in H. contradiction. }
      rewrite Hin.
      specialize (IH s). cbv zeta in IH.
      destruct (runLogs s evs) as [s' rs']. cbn [fst] in *. exact IH.
Qed.

(** ** Inventory *)

Lemma find_ITEM_none (l : list RewardEvent.t) :
  Forall (fun r => RewardEvent.type r <> ITEM) l ->
  find (fun r => RewardType_eqb (RewardEvent.type r) ITEM) l = None.
Proof.
  induction 1 as [|r l Hr _ IH]; [reflexivity|].
  cbn. destruct (RewardEvent.type r); try exact IH. contradiction.
Qed.

Lemma LOOT_TABLE_truthy (item : string) :
  In item LOOT_TABLE -> String.eqb item "" = false.
Proof.
  cbn. intros H.
  repeat match goal with
         | H : _ \/ _ |- _ => destruct H as [H|H]
         | H : False |- _ => destruct H
         end; subst item; reflexivity.
Qed.

(** The item a log adds is decided by the roll's rewards alone: the later
    sections emit no item event. *)
Lemma inventory_from_roll (s : UserState) (e : Env) (type : ActivityType)
    (duration : Z) (s' : UserState) (rs : list RewardEvent.t) :
  applyActivityLog s e type duration = Some (s', rs) ->
  exists activityDef,
    find (fun a => String.eqb (ActivityDef.type a) type) (allActivities s) = Some activityDef
    /\ inventory s'
       = match truthyItem
                 (find (fun r => RewardType_eqb (RewardEvent.type r) ITEM)
                    (snd (randomRewards e
                            (calculateXP (ActivityDef.baseXP activityDef)
                               (ActivityDef.baseDuration activityDef) duration)))) with
         | Some i => inventory s ++ [i]
         | None => inventory s
         end.
Proof.
  intros H.
  destruct (applyActivityLog_structure _ _ _ _ _ _ H)
    as (activityDef0 & newLog & b2 & b3 & x2 & x3 & x5 & new & Hfind0 & Hst).
  cbv zeta in Hst. destruct Hst as (Hrs & A2 & A3 & A5 & _).
  destruct (applyActivityLog_fields _ _ _ _ _ _ H) as (activityDef & Hfind & Hf).
  cbv zeta in Hf. destruct Hf as (_ & Hs').
  assert (activityDef0 = activityDef) by congruence. subst activityDef0.
  exists activityDef. split; [exact Hfind|].
  set (baseXP := calculateXP _ _ _) in *.
  assert (Hinv : inventory s'
                 = match truthyItem
                           (find (fun r => RewardType_eqb (RewardEvent.type r) ITEM) rs) with
                   | Some i => inventory s ++ [i]
                   | None => inventory s
                   end) by (rewrite Hs' at 1; reflexivity).
  clear Hs'. rewrite Hinv. clear Hinv.
  set (x4 := if level s <? level s' then _ else _) in Hrs.
  assert (Hrest : find (fun r => RewardType_eqb (RewardEvent.type r) ITEM)
                    (x2 ++ x3 ++ x4 ++ x5) = None).
  { apply find_ITEM_none. rewrite !Forall_app. repeat split.
    - eapply Forall_impl; [|exact A2]. intros r [-> _]. discriminate.
    - eapply Forall_impl; [|exact A3]. intros r [-> _]. discriminate.
    - subst x4. destruct (level s <? level s'); repeat constructor; discriminate.
    - eapply Forall_impl; [|exact A5]. intros r [-> _]. discriminate. }
  rewrite Hrs.
  destruct (find (fun r => RewardType_eqb (RewardEvent.type r) ITEM)
              (snd (randomRewards e baseXP))) as [r|] eqn:E.
  - rewrite (find_app_Some _ _ _ _ E). reflexivity.
  - rewrite (find_app_None _ _ _ E), Hrest. reflexivity.
Qed.

(** A log leaves the inventory alone or appends one entry of
    [LOOT_TABLE]. *)
Lemma inventory_step (s : UserState) (e : Env) (type : ActivityType)
    (duration : Z) (s' : UserState) (rs : list RewardEvent.t) :
  applyActivityLog s e type duration = Some (s', rs) ->
  inventory s' = inventory s
  \/ exists item, In item LOOT_TABLE /\ inventory s' = inventory s ++ [item].
Proof.
  intros H. destruct (inventory_from_roll _ _ _ _ _ _ H) as (activityDef & _ & ->).
  unfold randomRewards.
  destruct (Qltb (roll e) 0.10); [left; reflexivity|].
  destruct (Qltb (roll e) 0.25); [left; reflexivity|].
  destruct (Qltb (roll e) 0.30); [|left; reflexivity].
  cbn [snd find RewardEvent.type RewardType_eqb truthyItem RewardEvent.item].
  unfold nth_Z. destruct (_ <? 0); [left; reflexivity|].
  destruct (nth_error LOOT_TABLE _) as [item|] eqn:En; [|left; reflexivity].
  apply nth_error_In in En. rewrite (LOOT_TABLE_truthy item En).
  right. exists item. split; [exact En|reflexivity].
Qed.



(** ** The XP of one log *)

Lemma streakLogic_exact (e : Env) (g : UserState) (xp : Z) (rs : list RewardEvent.t) :
  let r := streakLogic e g xp rs in
  snd (fst r)
  = xp + (if negb (String.eqb (lastLoginDate g) (todayStr e))
             && (0 <? fst (fst r)) && (Z.rem (fst (fst r)) 7 =? 0)
          then 100 else 0).
Proof.
  cbv zeta. unfold streakLogic.
  destruct (negb _); cbn [andb]; [|cbn; lia].
  destruct ((0 <? _) && _) eqn:E; cbn [fst snd]; rewrite E; lia.
Qed.

Lemma dailyQuestLogic_xp (g : UserState) (type : ActivityType) (xp : Z)
    (rs extra : list RewardEvent.t) :
  snd (dailyQuestLogic g type xp rs) = rs ++ extra ->
  snd (fst (dailyQuestLogic g type xp rs))
  = xp + 80 * Z.of_nat (countType QUEST_COMPLETE extra).
Proof.
  unfold dailyQuestLogic. cbv zeta.
  destruct (_ && negb (includes _ _)).
  - destruct (_ && negb (DailyQuestState.bonusClaimed _)); cbn [fst snd]; intros H.
    + apply app_inv_head in H. subst extra. cbn. lia.
    + rewrite <- (app_nil_r rs) in H at 1. apply app_inv_head in H. subst extra. cbn. lia.
  - cbn [fst snd]. intros H.
    rewrite <- (app_nil_r rs) in H at 1. apply app_inv_head in H. subst extra. cbn. lia.
Qed.



(** ** Achievements after a log *)

Lemma checkAchievements_In (achs : list Achievement.t) (e : Env)
    (tempState : UserState) (newLog : Log.t) (id : string) :
  forall (unlocked : list string) (rs : list RewardEvent.t),
    In id (fst (checkAchievements achs e tempState newLog unlocked rs))
    <-> In id unlocked
        \/ exists ach, In ach achs /\ Achievement.id ach = id
                       /\ Achievement.condition ach e tempState (Some newLog) = true.
Proof.
  unfold checkAchievements.
  induction achs as [|ach achs IH]; intros unlocked rs.
  - cbn. split; [tauto|]. intros [H|(a & [] & _)]. exact H.
  - cbn [fold_left]. unfold checkAchievement at 2.
    destruct (includes unlocked (Achievement.id ach)) eqn:Ei; cbn [negb andb].
    + rewrite IH. split.
      * intros [H|(a & Ha & Hid & Hc)]; [tauto|]. right. exists a. cbn. tauto.
      * intros [H|(a & [<-|Ha] & Hid & Hc)]; [tauto| |].
        -- left. subst id. apply includes_In, Ei.
        -- right. exists a. tauto.
    + destruct (Achievement.condition ach e tempState (Some newLog)) eqn:Ec.
      * rewrite IH. rewrite in_app_iff. cbn [In]. split.
        -- intros [[H|[H|[]]]|(a & Ha & Hid & Hc)].
           ++ tauto.
           ++ right. exists ach. cbn. tauto.
           ++ right. exists a. cbn. tauto.
        -- intros [H|(a & [<-|Ha] & Hid & Hc)]; [tauto| |].
           ++ left. right. left. exact Hid.
           ++ right. exists a. tauto.
      * rewrite IH. split.
        -- intros [H|(a & Ha & Hid & Hc)]; [tauto|]. right. exists a. cbn. tauto.
        -- intros [H|(a & [<-|Ha] & Hid & Hc)]; [tauto|congruence|].
           right. exists a. tauto.
Qed.

(** Membership in the unlocked list after a log, with the conditions read
    on the new profile. *)
Lemma achievements_iff (s : UserState) (e : Env) (type : ActivityType)
    (duration : Z) (s' : UserState) (rs : list RewardEvent.t) :
  applyActivityLog s e type duration = Some (s', rs) ->
  exists newLog,
    logs s' = newLog :: logs s
    /\ forall id,
         In id (unlockedAchievements s')
         <-> In id (unlockedAchievements s)
             \/ exists ach, In ach ACHIEVEMENTS_LIST /\ Achievement.id ach = id
                            /\ Achievement.condition ach e s' (Some newLog) = true.
Proof.
  intros H.
  destruct (applyActivityLog_fields _ _ _ _ _ _ H) as (activityDef & Hfind & Hf).
  cbv zeta in Hf. destruct Hf as (_ & ->).
  eexists. split; [reflexivity|].
  intros id. cbn [unlockedAchievements].
  rewrite checkAchievements_In.
  split; (intros [Hu|(ach & Hin & Hid & Hc)]; [left; exact Hu|]; right; exists ach;
          split; [exact Hin|]; split; [exact Hid|]; rewrite <- Hc; cbn in Hin;
          repeat match goal with
                 | H : _ \/ _ |- _ => destruct H as [H|H]
                 | H : False |- _ => destruct H
                 end; subst ach; reflexivity).
Qed.

Lemma first_step_condition (e : Env) (s' : UserState) (newLog : Log.t) (l : list Log.t) :
  logs s' = newLog :: l ->
  exists ach, In ach ACHIEVEMENTS_LIST /\ Achievement.id ach = "first_step"
              /\ Achievement.condition ach e s' (Some newLog) = true.
Proof.
  intros Hlogs. eexists. split; [left; reflexivity|]. split; [reflexivity|].
  cbn. rewrite Hlogs. cbn [List.length]. apply Z.leb_le. lia.
Qed.

Lemma first_step_unlocked (s : UserState) (e : Env) (type : ActivityType)
    (duration : Z) (s' : UserState) (rs : list RewardEvent.t) :
  applyActivityLog s e type duration = Some (s', rs) ->
  In "first_step" (unlockedAchievements s').
Proof.
  intros H. destruct (achievements_iff _ _ _ _ _ _ H) as (newLog & Hlogs & Hiff).
  apply Hiff. right. exact (first_step_condition e s' newLog _ Hlogs).
Qed.



(** ** Sums over the logs *)

Lemma sumBy_cons {A} (f : A -> Z) (x : A) (l : list A) :
  sumBy f (x :: l) = f x + sumBy f l.
Proof.
  unfold sumBy. cbn [fold_left].
  assert (H : forall l a, fold_left (fun acc curr => acc + f curr) l a
                          = a + fold_left (fun acc curr => acc + f curr) l 0).
  { clear. intros l. induction l as [|y l IH]; intros a; cbn [fold_left]; [lia|].
    rewrite (IH (a + f y)), (IH (0 + f y)). lia. }
  rewrite (H l (0 + f x)). lia.
Qed.

(** "Today's XP" on the dashboard grows by exactly the XP of a new log
    made under the same date, and the XP counted for any other date is
    untouched. *)
Theorem todayXP_after_log (s : UserState) (e : Env) (type : ActivityType)
    (duration : Z) (s' : UserState) (rs : list RewardEvent.t) :
  applyActivityLog s e type duration = Some (s', rs) ->
  exists newLog,
    logs s' = newLog :: logs s
    /\ todayXP (todayStr e) s' = todayXP (todayStr e) s + Log.xpEarned newLog
    /\ forall d, d <> todayStr e -> todayXP d s' = todayXP d s.
Proof.
  intros H.
  destruct (applyActivityLog_fields _ _ _ _ _ _ H) as (activityDef & Hfind & Hf).
  cbv zeta in Hf. destruct Hf as (_ & ->).
  eexists. split; [reflexivity|]. unfold todayXP. cbn [logs filter Log.dateStr].
  split.
  - rewrite String.eqb_refl, sumBy_cons. cbn [Log.xpEarned]. lia.
  - intros d Hd. destruct (String.eqb_spec (todayStr e) d); [congruence|reflexivity].
Qed.

Lemma todayXP_after_log_witness :
  exists s' rs,
    applyActivityLog state_99xp env_jan2 "Workout" 1 = Some (s', rs)
    /\ todayXP "2024-01-02" s' = todayXP "2024-01-02" state_99xp + 1.
Proof.
  eexists. eexists. split; [vm_compute; reflexivity|].
  destruct (todayXP_after_log state_99xp env_jan2 "Workout" 1 _ _ eq_refl)
    as (newLog & Hlogs & Htoday & _).
  injection Hlogs as <-. exact Htoday.
Defined.

(** ** More invariants of the reachable states *)

Lemma reachable_reachableStale (s : UserState) : reachable s -> reachableStale s.
Proof.
  induction 1 as [|today yest s _ IH|a s _ IH|s e type duration s' rs _ IH Hstep].
  - apply stale_initial.
  - apply stale_mount, IH.
  - apply stale_add, IH.
  - exact (stale_log s s e type duration s' rs IH IH Hstep).
Qed.

(** In every profile the app can reach, also through calls of a handler
    that captured an older state, [currentXP] is the sum of the XP of all
    logs: the updater takes both from the state it is handed. *)
Theorem currentXP_is_log_sum (s : UserState) :
  reachableStale s -> currentXP s = sumBy Log.xpEarned (logs s).
Proof.
  induction 1 as [|today yest s _ IH|a s _ IH
                  |gameState prev e type duration s' rs _ _ _ IH Hstep].
  - reflexivity.
  - exact IH.
  - exact IH.
  - destruct (handleLogActivity_xp_bases _ _ _ _ _ _ _ Hstep) as (newLog & Hlogs & Hcur & _).
    rewrite Hlogs, Hcur, sumBy_cons. lia.
Qed.

Lemma reachableStale_state_second_tap : reachableStale state_second_tap.
Proof.
  assert (H0 : reachableStale state_mounted_jan2) by apply stale_mount, stale_initial.
  assert (H1 : reachableStale state_first_tap).
  { eapply (stale_log state_mounted_jan2 state_mounted_jan2 env_jan2 "Workout" 30);
      [exact H0 | exact H0 | vm_compute; reflexivity]. }
  eapply (stale_log state_mounted_jan2 state_first_tap env_jan2 "Reading" 30);
    [exact H0 | exact H1 | vm_compute; reflexivity].
Qed.

Lemma currentXP_is_log_sum_witness :
  reachableStale state_second_tap
  /\ currentXP state_second_tap = sumBy Log.xpEarned (logs state_second_tap).
Proof.
  split; [exact reachableStale_state_second_tap|].
  exact (currentXP_is_log_sum state_second_tap reachableStale_state_second_tap).
Defined.

(** In every reachable profile the unlocked achievements are achievements
    of [ACHIEVEMENTS_LIST] (so at most five), every inventory item is an
    entry of [LOOT_TABLE], and there are no more items than logs. *)
Theorem reachable_collections (s : UserState) :
  reachable s ->
  incl (unlockedAchievements s) (map Achievement.id ACHIEVEMENTS_LIST)
  /\ (List.length (unlockedAchievements s) <= 5)%nat
  /\ Forall (fun item => In item LOOT_TABLE) (inventory s)
  /\ (List.length (inventory s) <= List.length (logs s))%nat.
Proof.
  intros Hreach.
  assert (Hnd : NoDup (unlockedAchievements s)) by (apply reachable_invariants, Hreach).
  enough (Hmain : incl (unlockedAchievements s) (map Achievement.id ACHIEVEMENTS_LIST)
                  /\ Forall (fun item => In item LOOT_TABLE) (inventory s)
                  /\ (List.length (inventory s) <= List.length (logs s))%nat).
  { destruct Hmain as (Hincl & Hinv & Hlen). split; [exact Hincl|]. split; [|tauto].
    exact (NoDup_incl_length Hnd Hincl). }
  clear Hnd.
  induction Hreach as [|today yest s _ IH|a s _ IH|s e type duration s' rs _ IH Hstep].
  - split; [intros x []|]. split; [constructor|]. cbn. lia.
  - exact IH.
  - exact IH.
  - destruct IH as (Hincl & Hinv & Hlen).
    pose proof (inventory_step _ _ _ _ _ _ Hstep) as Hitem.
    destruct (applyActivityLog_structure _ _ _ _ _ _ Hstep)
      as (activityDef & newLog & b2 & b3 & x2 & x3 & x5 & new & _ & Hst).
    cbv zeta in Hst.
    destruct Hst as (_ & _ & _ & _ & _ & _ & Hlogs & _ & _ & _ & _ & _ & _ & _ & Hach).
    destruct Hach as (tempState & rs4 & Hunl).
    split; [|split].
    + intros id Hid. rewrite Hunl in Hid. apply checkAchievements_In in Hid.
      destruct Hid as [Hid|(ach & Hin & <- & _)]; [apply Hincl, Hid | apply in_map, Hin].
    + destruct Hitem as [->|(item & Hin & ->)]; [exact Hinv|].
      apply Forall_app. split; [exact Hinv|]. constructor; [exact Hin|constructor].
    + rewrite Hlogs. cbn [List.length].
      destruct Hitem as [->|(item & Hin & ->)]; [lia|]. rewrite length_app. cbn. lia.
Qed.

Lemma reachable_collections_witness :
  reachable state_jan1 /\ (List.length (unlockedAchievements state_jan1) <= 5)%nat.
Proof.
  split; [exact reachable_state_jan1|].
  exact (proj1 (proj2 (reachable_collections state_jan1 reachable_state_jan1))).
Defined.

(** In every reachable profile [lastLoginDate] is the date of the newest
    log (the empty string when nothing was logged), and "first_step" is
    unlocked exactly when there is a log. *)
Theorem reachable_last_log (s : UserState) :
  reachable s ->
  lastLoginDate s = match logs s with [] => "" | l :: _ => Log.dateStr l end
  /\ (In "first_step" (unlockedAchievements s) <-> logs s <> []).
Proof.
  induction 1 as [|today yest s _ IH|a s _ IH|s e type duration s' rs _ IH Hstep].
  - split; [reflexivity|]. cbn. split; [tauto|]. intros H; exact (H eq_refl).
  - exact IH.
  - exact IH.
  - destruct (achievements_iff _ _ _ _ _ _ Hstep) as (newLog & Hlogs & _).
    pose proof (first_step_unlocked _ _ _ _ _ _ Hstep) as Hfirst.
    destruct (applyActivityLog_fields _ _ _ _ _ _ Hstep) as (activityDef & _ & Hf).
    cbv zeta in Hf. destruct Hf as (_ & Hs').
    split.
    + rewrite Hs'. reflexivity.
    + rewrite Hlogs. split; [discriminate|]. intros _. exact Hfirst.
Qed.

Lemma reachable_last_log_witness :
  reachable state_jan1 /\ lastLoginDate state_jan1 = "2024-01-01".
Proof.
  split; [exact reachable_state_jan1|].
  exact (proj1 (reachable_last_log state_jan1 reachable_state_jan1)).
Defined.

(** ** The mount-time date check *)

Lemma ltb_irrefl (x : string) : String.ltb x x = false.
Proof.
  unfold String.ltb. pose proof (String.compare_antisym x x) as H.
  destruct (String.compare x x); [reflexivity | discriminate H | reflexivity].
Qed.

(** Running the mount-time check twice with the same dates is the same as
    running it once; it changes nothing but the streak and the tracker;
    afterwards the tracker is dated today. *)
Theorem initDateCheck_idempotent (today yest : string) (s : UserState) :
  let s1 := initDateCheck today yest s in
  initDateCheck today yest s1 = s1
  /\ DailyQuestState.dateStr (dailyQuests s1) = today
  /\ (level s1, currentXP s1, totalXP s1, stats s1, logs s1) =
     (level s, currentXP s, totalXP s, stats s, logs s)
  /\ (lastLoginDate s1, unlockedAchievements s1, inventory s1, customActivities s1) =
     (lastLoginDate s, unlockedAchievements s, inventory s, customActivities s)
  /\ (streak s1 = streak s \/ streak s1 = 0).
Proof.
  cbv zeta. unfold initDateCheck. cbn [dailyQuests lastLoginDate streak level currentXP
    totalXP stats logs unlockedAchievements inventory customActivities].
  split; [|split; [|split; [reflexivity|split; [reflexivity|]]]].
  - f_equal.
    + destruct (_ && String.ltb _ _); reflexivity.
    + destruct (String.eqb_spec (DailyQuestState.dateStr (dailyQuests s)) today) as [E|E];
        cbn [negb DailyQuestState.dateStr].
      * rewrite E, String.eqb_refl. reflexivity.
      * rewrite String.eqb_refl. reflexivity.
  - destruct (String.eqb_spec (DailyQuestState.dateStr (dailyQuests s)) today) as [E|E];
      cbn [negb DailyQuestState.dateStr]; [exact E|reflexivity].
  - destruct (_ && String.ltb _ _); [right|left]; reflexivity.
Qed.

(** The streak after a log, with and without the mount-time check before
    it. *)
Lemma streak_after_mount_check (s : UserState) (e : Env) (type : ActivityType)
    (duration : Z) :
  let s0 := initDateCheck (todayStr e) (yesterday e) s in
  streak (stateAfter s0 (applyActivityLog s0 e type duration)) =
  (if includes (map ActivityDef.type (allActivities s)) type
   then streak (stateAfter s (applyActivityLog s e type duration))
   else streak s0).
Proof.
  cbv zeta.
  set (s0 := initDateCheck (todayStr e) (yesterday e) s).
  assert (Hall : allActivities s0 = allActivities s) by reflexivity.
  destruct (includes _ type) eqn:Ein.
  - apply includes_In in Ein.
    destruct (applyActivityLog s0 e type duration) as [[s0' rs0]|] eqn:H0;
      [|apply applyActivityLog_None_iff in H0; rewrite Hall in H0; contradiction].
    destruct (applyActivityLog s e type duration) as [[s' rs]|] eqn:H1;
      [|apply applyActivityLog_None_iff in H1; contradiction].
    cbn [stateAfter].
    destruct (applyActivityLog_fields _ _ _ _ _ _ H0) as (d0 & _ & Hf0).
    destruct (applyActivityLog_fields _ _ _ _ _ _ H1) as (d1 & _ & Hf1).
    cbv zeta in Hf0, Hf1. destruct Hf0 as (_ & ->). destruct Hf1 as (_ & ->).
    cbn [streak]. unfold streakLogic.
    change (lastLoginDate s0) with (lastLoginDate s).
    destruct (String.eqb_spec (lastLoginDate s) (todayStr e)) as [Et|Et]; cbn [negb].
    + cbn [fst]. unfold s0, initDateCheck. cbn [streak].
      rewrite Et, String.eqb_refl. reflexivity.
    + destruct (String.eqb_spec (lastLoginDate s) (yesterday e)) as [Ey|Ey].
      * assert (Hs0 : streak s0 = streak s).
        { unfold s0, initDateCheck. cbn [streak]. rewrite Ey, ltb_irrefl, andb_false_r.
          reflexivity. }
        rewrite Hs0. destruct (_ && _); reflexivity.
      * destruct (_ && _); reflexivity.
  - destruct (applyActivityLog s0 e type duration) as [[s0' rs0]|] eqn:H0; [|reflexivity].
    exfalso.
    assert (Hn : applyActivityLog s0 e type duration <> None) by congruence.
    apply Hn. apply applyActivityLog_None_iff. rewrite Hall. intros Hin.
    apply includes_In in Hin. congruence.
Qed.

(** When the mount-time check resets the streak, the next log of a known
    activity sets it to 1. *)
Lemma streak_after_reset (s : UserState) (e : Env) (type : ActivityType) (duration : Z) :
  let s0 := initDateCheck (todayStr e) (yesterday e) s in
  negb (String.eqb (lastLoginDate s) (todayStr e))
  && negb (String.eqb (lastLoginDate s) "")
  && String.ltb (lastLoginDate s) (yesterday e) = true ->
  streak s0 = 0
  /\ (In type (map ActivityDef.type (allActivities s)) ->
      streak (stateAfter s0 (applyActivityLog s0 e type duration)) = 1).
Proof.
  cbv zeta. intros Hc.
  set (s0 := initDateCheck (todayStr e) (yesterday e) s).
  assert (Hs0 : streak s0 = 0).
  { unfold s0, initDateCheck. cbn [streak]. rewrite Hc. reflexivity. }
  split; [exact Hs0|]. intros Hin.
  apply andb_true_iff in Hc as (Hc & Hlt). apply andb_true_iff in Hc as (Htoday & _).
  destruct (applyActivityLog s0 e type duration) as [[s0' rs0]|] eqn:H0;
    [|apply applyActivityLog_None_iff in H0; contradiction].
  cbn [stateAfter].
  destruct (applyActivityLog_fields _ _ _ _ _ _ H0) as (d0 & _ & Hf0).
  cbv zeta in Hf0. destruct Hf0 as (_ & ->).
  cbn [streak]. unfold streakLogic.
  change (lastLoginDate s0) with (lastLoginDate s). rewrite Htoday.
  destruct (String.eqb_spec (lastLoginDate s) (yesterday e)) as [Ey|Ey].
  - rewrite Ey, ltb_irrefl in Hlt. discriminate Hlt.
  - reflexivity.
Qed.

(** The mount-time reset and the streak rule of the handler agree: the
    streak after a log is the same whether or not the mount-time check
    (with the same two dates) ran before it.  The check changes the streak
    only when the last log is dated before yesterday (and not today); it
    then sets the streak to 0, and the next log of a known activity sets
    it to 1. *)
Theorem streak_same_after_mount_check (s : UserState) (e : Env) (type : ActivityType)
    (duration : Z) :
  let s0 := initDateCheck (todayStr e) (yesterday e) s in
  let reset :=
    negb (String.eqb (lastLoginDate s) (todayStr e))
    && negb (String.eqb (lastLoginDate s) "")
    && String.ltb (lastLoginDate s) (yesterday e) in
  streak (stateAfter s0 (applyActivityLog s0 e type duration)) =
  (if includes (map ActivityDef.type (allActivities s)) type
   then streak (stateAfter s (applyActivityLog s e type duration))
   else streak s0)
  /\ (streak s0 <> streak s -> reset = true)
  /\ (reset = true ->
      streak s0 = 0
      /\ (In type (map ActivityDef.type (allActivities s)) ->
          streak (stateAfter s0 (applyActivityLog s0 e type duration)) = 1)).
Proof.
  cbv zeta. split; [apply streak_after_mount_check|]. split.
  - unfold initDateCheck. cbn [streak].
    destruct (_ && String.ltb _ _); [reflexivity|]. intros H. exfalso. apply H. reflexivity.
  - apply streak_after_reset.
Qed.

Lemma streak_same_after_mount_check_witness :
  streak state_absent = 5
  /\ streak (initDateCheck "2024-01-02" "2024-01-01" state_absent) = 0
  /\ streak (stateAfter (initDateCheck "2024-01-02" "2024-01-01" state_absent)
               (applyActivityLog (initDateCheck "2024-01-02" "2024-01-01" state_absent)
                  env_jan2 "Workout" 30)) = 1.
Proof.
  split; [reflexivity|].
  destruct (streak_same_after_mount_check state_absent env_jan2 "Workout" 30)
    as (_ & _ & Hreset).
  destruct (Hreset eq_refl) as (H0 & H1).
  split; [exact H0|].
  apply H1. cbn. tauto.
Defined.

(** ** XP never goes down *)

Lemma randomRewards_xp_ge (e : Env) (baseXP : Z) :
  (0 <= roll2 e)%Q -> 0 <= baseXP -> baseXP <= snd (fst (randomRewards e baseXP)).
Proof.
  intros Hr Hb. unfold randomRewards.
  destruct (Qltb (roll e) 0.10); [cbn; lia|].
  destruct (Qltb (roll e) 0.25).
  - cbn [fst snd].
    assert (0 <= Qfloor (roll2 e * 20)).
    { change 0 with (Qfloor 0). apply Qfloor_resp_le.
      apply Qmult_le_0_compat; [exact Hr|discriminate]. }
    lia.
  - destruct (Qltb (roll e) 0.30); cbn; lia.
Qed.

Lemma dailyQuestLogic_xp_ge (g : UserState) (type : ActivityType) (xp : Z)
    (rs : list RewardEvent.t) :
  xp <= snd (fst (dailyQuestLogic g type xp rs)).
Proof.
  unfold dailyQuestLogic. cbv zeta.
  destruct (_ && negb (includes _ _));
    [destruct (_ && negb (DailyQuestState.bonusClaimed _))|]; cbn [fst snd]; lia.
Qed.

(** The roll, the streak bonus and the quest bonus only add to the XP of
    the duration.  With a second random draw that is not negative (as
    [Math.random] gives it), whenever the XP the handler computes for the
    duration is not negative, the XP written into the new log is at least
    that amount, and neither XP counter goes down: [currentXP] against the
    updater's state, [totalXP] against the captured state. *)
Theorem log_earns_at_least_base (gameState prev : UserState) (e : Env)
    (type : ActivityType) (duration : Z) (s' : UserState) (rs : list RewardEvent.t) :
  (0 <= roll2 e)%Q ->
  handleLogActivity gameState prev e type duration = Some (s', rs) ->
  exists activityDef newLog,
    find (fun a => String.eqb (ActivityDef.type a) type) (allActivities gameState)
      = Some activityDef
    /\ logs s' = newLog :: logs prev
    /\ let baseXP :=
         calculateXP (ActivityDef.baseXP activityDef) (ActivityDef.baseDuration activityDef)
           duration in
       0 <= baseXP ->
       baseXP <= Log.xpEarned newLog
       /\ currentXP prev <= currentXP s'
       /\ totalXP gameState <= totalXP s'.
Proof.
  intros Hr H. apply handleLogActivity_inv in H.
  destruct H as (activityDef & Hfind & H). cbv zeta in H.
  destruct H as (tempState & _ & Hcur & Htot & Hlogs & _).
  exists activityDef. eexists. split; [exact Hfind|]. split; [exact Hlogs|].
  cbv zeta. intros Hbase. cbn [Log.xpEarned].
  set (baseXP := calculateXP _ _ _) in *.
  pose proof (randomRewards_xp_ge e baseXP Hr Hbase) as Hroll.
  set (r1 := randomRewards e baseXP) in *.
  pose proof (streakLogic_exact e gameState (snd (fst r1)) (snd r1)) as Hstreak.
  cbv zeta in Hstreak.
  set (r2 := streakLogic e gameState (snd (fst r1)) (snd r1)) in *.
  pose proof (dailyQuestLogic_xp_ge gameState type (snd (fst r2)) (snd r2)) as Hquest.
  assert (Hge : snd (fst r1) <= snd (fst r2)).
  { rewrite Hstreak. destruct (_ && _); lia. }
  lia.
Qed.

Lemma log_earns_at_least_base_witness :
  (0 <= roll2 env_jan2)%Q
  /\ exists s' rs,
       handleLogActivity state_mounted_jan2 state_first_tap env_jan2 "Reading" 30
       = Some (s', rs)
       /\ currentXP state_first_tap <= currentXP s'
       /\ totalXP state_mounted_jan2 <= totalXP s'.
Proof.
  assert (Hr : (0 <= roll2 env_jan2)%Q) by discriminate.
  split; [exact Hr|].
  eexists. eexists. split; [vm_compute; reflexivity|].
  destruct (log_earns_at_least_base state_mounted_jan2 state_first_tap env_jan2 "Reading" 30
              _ _ Hr eq_refl) as (activityDef & newLog & Hfind & _ & Hge).
  vm_compute in Hfind. injection Hfind as <-.
  cbv zeta in Hge.
  assert (Hbase : 0 <= calculateXP 25 30 30) by (vm_compute; discriminate).
  destruct (Hge Hbase) as (_ & Hcur & Htot).
  split; [exact Hcur | exact Htot].
Defined.

Lemma unknown_activity_iff_witness :
  ~ In "Juggling" (map ActivityDef.type (allActivities INITIAL_STATE))
  /\ applyActivityLog INITIAL_STATE env_jan2 "Juggling" 30 = None.
Proof.
  assert (H : ~ In "Juggling" (map ActivityDef.type (allActivities INITIAL_STATE))).
  { cbn. intros Hin.
    repeat match goal with
           | H : _ \/ _ |- _ => destruct H as [H|H]
           | H : False |- _ => destruct H
           end; discriminate. }
  split; [exact H|].
  exact (proj2 (proj1 (unknown_activity_iff INITIAL_STATE env_jan2 "Juggling" 30)) H).
Defined.
